(** * The IMDB dataset merge pipeline of [download_imdb_data_auto.py]

    A shallow embedding of the six stages of the script: the four plain
    index builders ([load_ratings], [load_crew], [load_names],
    [load_languages_and_countries]), the cast builder [load_principals]
    and the terminal join [process_basics], followed by the properties
    of the pipeline that its specification states.

    Conventions.
    - A Python [str] is a Rocq [string] holding the UTF-8 bytes of the
      text.  The files are opened with [encoding='utf-8'], so every line
      handed to the code is valid UTF-8.
    - A Python [dict] keyed by strings is a [gmap string _]; none of the
      dictionaries of the script is ever read in iteration order in a way
      that the result depends on.
    - A Python [int] is a [Z], a Python [float] is a binary64 value of
      [spec_float].
    - A gzip text stream is the list of lines that the iterator hands out
      before it stops, together with the way it stops: at the regular
      end of the file, or with [EOFError] when the archive is cut.
    - [EOFError] is the one exception of the model.  An archive that is
      no gzip data at all, one whose data is damaged, bytes that are
      not UTF-8 and errors of the file system are outside of it, and so
      are the runs that they end. *)

From Stdlib Require Import ZArith Ascii String List Decimal DecimalString.
From Stdlib Require Import Floats.SpecFloat.
From Stdlib Require DecimalPos.
From stdpp Require Import base option list gmap strings.

Local Open Scope Z_scope.

(** ** Python string primitives *)

Module PyStr.

Definition chr (n : nat) : ascii := ascii_of_nat n.

Definition TAB : ascii := chr 9.
Definition LF : ascii := chr 10.
Definition COMMA : ascii := ","%char.
Definition PIPE : ascii := "|"%char.

(** The missing-value token of the IMDB files, written ['\\N'] in the
    script: a backslash followed by a capital N. *)
Definition SENTINEL : string := String (chr 92) (String "N"%char EmptyString).

(** [str.isspace] characters, as UTF-8 byte sequences: the ASCII ones
    (U+0009..U+000D, U+001C..U+001F, U+0020) and the others of the
    Unicode database (U+0085, U+00A0, U+1680, U+2000..U+200A, U+2028,
    U+2029, U+202F, U+205F, U+3000). *)
Definition whitespace : list (list ascii) :=
  map (fun n => [chr n]) [9; 10; 11; 12; 13; 28; 29; 30; 31; 32]%nat
  ++ map (map chr)
       [ [194; 133]; [194; 160]; [225; 154; 128];
         [226; 128; 128]; [226; 128; 129]; [226; 128; 130];
         [226; 128; 131]; [226; 128; 132]; [226; 128; 133];
         [226; 128; 134]; [226; 128; 135]; [226; 128; 136];
         [226; 128; 137]; [226; 128; 138]; [226; 128; 168];
         [226; 128; 169]; [226; 128; 175]; [226; 129; 159];
         [227; 128; 128] ]%nat.

Fixpoint drop_prefix (p l : list ascii) : option (list ascii) :=
  match p, l with
  | [], _ => Some l
  | _ :: _, [] => None
  | a :: p', b :: l' => if Ascii.eqb a b then drop_prefix p' l' else None
  end.

Fixpoint drop_first (table : list (list ascii)) (l : list ascii)
  : option (list ascii) :=
  match table with
  | [] => None
  | p :: table' =>
      match drop_prefix p l with
      | Some l' => Some l'
      | None => drop_first table' l
      end
  end.

Fixpoint lstrip_with (table : list (list ascii)) (fuel : nat)
    (l : list ascii) : list ascii :=
  match fuel with
  | O => l
  | S fuel' =>
      match drop_first table l with
      | Some l' => lstrip_with table fuel' l'
      | None => l
      end
  end.

Definition lstrip_bytes (l : list ascii) : list ascii :=
  lstrip_with whitespace (List.length l) l.

Definition rstrip_bytes (l : list ascii) : list ascii :=
  rev (lstrip_with (map (@rev ascii) whitespace) (List.length l) (rev l)).

(** [s.strip()] *)
Definition strip (s : string) : string :=
  string_of_list_ascii
    (rstrip_bytes (lstrip_bytes (list_ascii_of_string s))).

(** [s.split(sep)] for a one-character separator: never empty, and
    [''.split(sep) == ['']]. *)
Fixpoint split (sep : ascii) (s : string) : list string :=
  match s with
  | EmptyString => [EmptyString]
  | String c rest =>
      if Ascii.eqb c sep then EmptyString :: split sep rest
      else match split sep rest with
           | x :: xs => String c x :: xs
           | [] => [String c EmptyString]
           end
  end.

(** [sep.join(l)] *)
Definition join (sep : string) (l : list string) : string :=
  String.concat sep l.

(** [s.replace(a, b)] for one-character [a] and [b]. *)
Fixpoint replace (a b : ascii) (s : string) : string :=
  match s with
  | EmptyString => EmptyString
  | String c rest =>
      String (if Ascii.eqb c a then b else c) (replace a b rest)
  end.

(** Truth value of a string: non-empty. *)
Definition truthy (s : string) : bool :=
  match s with EmptyString => false | String _ _ => true end.

(** [parts[i]] once the length test has passed; the empty string
    stands in for the [IndexError] that the guards rule out. *)
Definition item (parts : list string) (i : nat) : string :=
  nth i parts EmptyString.

(** [str(n)] and [f"{n}"] for an [int]; the limit that recent
    interpreters put on the number of digits is left out. *)
Definition of_int (n : Z) : string :=
  NilZero.string_of_int (Z.to_int n).

End PyStr.

(** ** Python numbers: [int(s)], [float(s)] and the [.1f] format *)

Module PyNum.

Definition prec : Z := 53.
Definition emax : Z := 1024.

(** A Python [float]: an IEEE 754 binary64 value. *)
Definition float : Type := spec_float.

Definition digit_of (c : ascii) : option Z :=
  let n := Z.of_nat (nat_of_ascii c) in
  if (48 <=? n) && (n <=? 57) then Some (n - 48) else None.

Definition is_char (a c : ascii) : bool := Ascii.eqb a c.

(** The tail [(["_"] digit)*] of a [digitpart]: the value read so far,
    the number of digits read so far, and what is left. *)
Fixpoint scan_rest (l : list ascii) (acc n : Z) {struct l}
  : Z * Z * list ascii :=
  match l with
  | c :: l' =>
      match digit_of c with
      | Some d => scan_rest l' (10 * acc + d) (n + 1)
      | None =>
          if is_char "_" c then
            match l' with
            | c2 :: l'' =>
                match digit_of c2 with
                | Some d => scan_rest l'' (10 * acc + d) (n + 1)
                | None => (acc, n, l)
                end
            | [] => (acc, n, l)
            end
          else (acc, n, l)
      end
  | [] => (acc, n, l)
  end.

(** [digitpart ::= digit (["_"] digit)*], continuing from [acc], [n]. *)
Definition digitpart (l : list ascii) (acc n : Z)
  : option (Z * Z * list ascii) :=
  match l with
  | c :: l' =>
      match digit_of c with
      | Some d => Some (scan_rest l' (10 * acc + d) (n + 1))
      | None => None
      end
  | [] => None
  end.

(** An optional sign: [true] for a minus. *)
Definition sign (l : list ascii) : bool * list ascii :=
  match l with
  | c :: l' =>
      if is_char "-" c then (true, l')
      else if is_char "+" c then (false, l')
      else (false, l)
  | [] => (false, l)
  end.

(** The code points of a UTF-8 text.  The streams are decoded by the
    file object, so only well-formed texts reach the code; on other
    bytes the result is of no interest. *)
Fixpoint code_points (l : list ascii) : list Z :=
  let byte c := Z.of_nat (nat_of_ascii c) in
  let cont c := byte c - 128 in
  match l with
  | [] => []
  | b0 :: r0 =>
      if byte b0 <? 128 then byte b0 :: code_points r0
      else
        match r0 with
        | [] => [65533]
        | b1 :: r1 =>
            if byte b0 <? 224 then
              ((byte b0 - 192) * 64 + cont b1) :: code_points r1
            else
              match r1 with
              | [] => [65533]
              | b2 :: r2 =>
                  if byte b0 <? 240 then
                    ((byte b0 - 224) * 4096 + cont b1 * 64 + cont b2)
                      :: code_points r2
                  else
                    match r2 with
                    | [] => [65533]
                    | b3 :: r3 =>
                        ((byte b0 - 240) * 262144 + cont b1 * 4096
                         + cont b2 * 64 + cont b3) :: code_points r3
                    end
              end
        end
  end.

(** The whitespace characters beyond ASCII (they are the ones of
    [PyStr.whitespace]). *)
Definition unicode_space : list Z :=
  [133; 160; 5760; 8192; 8193; 8194; 8195; 8196; 8197; 8198; 8199; 8200;
   8201; 8202; 8232; 8233; 8239; 8287; 12288].

(** The zero of each run of ten decimal digits beyond ASCII (category
    Nd of the Unicode database, version 14). *)
Definition decimal_zeros : list Z :=
  [1632; 1776; 1984; 2406; 2534; 2662; 2790; 2918; 3046; 3174; 3302;
   3430; 3558; 3664; 3792; 3872; 4160; 4240; 6112; 6160; 6470; 6608;
   6784; 6800; 6992; 7088; 7232; 7248; 42528; 43216; 43264; 43472;
   43504; 43600; 44016; 65296; 66720; 68912; 69734; 69872; 69942;
   70096; 70384; 70736; 70864; 71248; 71360; 71472; 71904; 72016;
   72784; 73040; 73120; 92768; 92864; 93008; 120782; 120792; 120802;
   120812; 120822; 123200; 123632; 125264; 130032].

Definition to_decimal (ch : Z) : option Z :=
  z ← List.find (fun z => (z <=? ch) && (ch <=? z + 9)) decimal_zeros;
  Some (ch - z).

Definition ascii_of_Z (n : Z) : ascii := ascii_of_nat (Z.to_nat n).

(** What [int] and [float] do to a [str] before they read it: spaces
    beyond ASCII become a blank, decimal digits become ASCII digits,
    and the text is cut with a question mark at the first other
    character from U+007F on. *)
Fixpoint transform (cps : list Z) : list ascii :=
  match cps with
  | [] => []
  | ch :: r =>
      if ch <? 127 then ascii_of_Z ch :: transform r
      else if existsb (Z.eqb ch) unicode_space then " "%char :: transform r
      else match to_decimal ch with
           | Some d => ascii_of_Z (48 + d) :: transform r
           | None => ["?"%char]
           end
  end.

(** The C whitespace: blank, and U+0009 to U+000D. *)
Definition is_c_space (c : ascii) : bool :=
  let n := Z.of_nat (nat_of_ascii c) in
  (n =? 32) || ((9 <=? n) && (n <=? 13)).

Fixpoint skip_space (l : list ascii) : list ascii :=
  match l with
  | c :: l' => if is_c_space c then skip_space l' else l
  | [] => []
  end.

Definition stripped (s : string) : list ascii :=
  rev (skip_space (rev (skip_space
    (transform (code_points (list_ascii_of_string s)))))).

(** [int(s)]: [None] stands for [ValueError].  The limit that recent
    interpreters put on the number of digits is left out. *)
Definition int (s : string) : option Z :=
  let '(neg, l) := sign (stripped s) in
  match digitpart l 0 0 with
  | Some (v, _, []) => Some (if neg then - v else v)
  | _ => None
  end.

(** The binary64 value nearest to [m * 10 ^ e10] (ties to even). *)
Definition of_decimal (neg : bool) (m e10 : Z) : float :=
  match m with
  | Zpos p =>
      if 0 <=? e10
      then binary_round prec emax neg (p * Z.to_pos (10 ^ e10)) 0
      else SFdiv prec emax (S754_finite neg p 0)
                 (S754_finite false (Z.to_pos (10 ^ (- e10))) 0)
  | _ => S754_zero neg
  end.

Definition lower (c : ascii) : ascii :=
  let n := nat_of_ascii c in
  if (65 <=? n)%nat && (n <=? 90)%nat then ascii_of_nat (n + 32) else c.

Definition lower_string (l : list ascii) : string :=
  string_of_list_ascii (map lower l).

(** [exponent ::= ("e" | "E") [sign] digitpart], through to the end. *)
Definition exponent (l : list ascii) : option Z :=
  match l with
  | [] => Some 0
  | c :: l' =>
      if is_char "e" (lower c) then
        let '(neg, l'') := sign l' in
        match digitpart l'' 0 0 with
        | Some (x, _, []) => Some (if neg then - x else x)
        | _ => None
        end
      else None
  end.

(** [number ::= [digitpart] "." digitpart | digitpart ["."]], then the
    exponent: the decimal mantissa and the power of ten. *)
Definition floatnumber (l : list ascii) : option (Z * Z) :=
  match digitpart l 0 0 with
  | Some (vi, _, rest) =>
      match rest with
      | c :: rest' =>
          if is_char "." c then
            match digitpart rest' vi 0 with
            | Some (v, nf, rest'') =>
                x ← exponent rest''; Some (v, x - nf)
            | None => x ← exponent rest'; Some (vi, x)
            end
          else x ← exponent rest; Some (vi, x)
      | [] => Some (vi, 0)
      end
  | None =>
      match l with
      | c :: rest' =>
          if is_char "." c then
            match digitpart rest' 0 0 with
            | Some (v, nf, rest'') =>
                x ← exponent rest''; Some (v, x - nf)
            | None => None
            end
          else None
      | [] => None
      end
  end.

(** [float(s)]: [None] stands for [ValueError]; a text too large for
    a binary64 gives an infinity, as in Python. *)
Definition float_of_str (s : string) : option float :=
  let '(neg, l) := sign (stripped s) in
  let w := lower_string l in
  if String.eqb w "inf" || String.eqb w "infinity" then
    Some (S754_infinity neg)
  else if String.eqb w "nan" then Some S754_nan
  else
    '(m, e10) ← floatnumber l; Some (of_decimal neg m e10).

(** The integer nearest to [10 * m * 2 ^ e] (ties to even). *)
Definition tenths (m : positive) (e : Z) : Z :=
  if 0 <=? e then 10 * Zpos m * 2 ^ e
  else
    let d := 2 ^ (- e) in
    let q := (10 * Zpos m) / d in
    let r := (10 * Zpos m) mod d in
    match 2 * r ?= d with
    | Lt => q
    | Gt => q + 1
    | Eq => if Z.even q then q else q + 1
    end.

Definition minus (neg : bool) : string := if neg then "-" else EmptyString.

(** [f"{x:.1f}"] *)
Definition format_1f (x : float) : string :=
  match x with
  | S754_zero s => minus s +:+ "0.0"
  | S754_infinity s => minus s +:+ "inf"
  | S754_nan => "nan"
  | S754_finite s m e =>
      let n := tenths m e in
      minus s +:+ PyStr.of_int (n / 10) +:+ "." +:+ PyStr.of_int (n mod 10)
  end.

End PyNum.

(** ** Exceptions, gzip text streams and dictionaries *)

Inductive exn : Type := EOFError.

Inductive result (A : Type) : Type :=
| Ok (a : A)
| Raise (e : exn).
Arguments Ok {A} a.
Arguments Raise {A} e.

(** How the iteration over a stream stops: at the end of the file, or
    with [EOFError] because the archive ends before its end marker. *)
Inductive stream_end : Type := EndOfFile | Truncated.

Record text_stream : Type := TextStream {
  pending : list string;
  ending : stream_end
}.

(** [f.readline()]: the next line, the empty string at the end of the
    file, [EOFError] at the cut of a truncated archive. *)
Definition readline (f : text_stream) : result (string * text_stream) :=
  match pending f with
  | line :: rest => Ok (line, TextStream rest (ending f))
  | [] =>
      match ending f with
      | EndOfFile => Ok (EmptyString, f)
      | Truncated => Raise EOFError
      end
  end.

(** What a stage hands back: its value, and whether it printed the
    warning about a truncated file. *)
Record outcome (A : Type) : Type := Outcome {
  value : A;
  truncated : bool
}.
Arguments Outcome {A} value truncated.
Arguments value {A} o.
Arguments truncated {A} o.

(** The frame shared by all the stages:
<<
    f.readline()  # Skip header
    try:
        for line in f: ...
    except EOFError:
        print(warning)
>>
    The header is read outside the [try], so a cut inside the header is
    not caught here.  The progress and summary messages are left out,
    they do not feed back into the data. *)
Definition was_cut (e : stream_end) : bool :=
  match e with EndOfFile => false | Truncated => true end.

Definition skip_header_then_each {S : Type} (body : S -> string -> S)
    (init : S) (f : text_stream) : result (outcome S) :=
  match readline f with
  | Raise e => Raise e
  | Ok (_, f') =>
      Ok (Outcome (fold_left body (pending f') init) (was_cut (ending f')))
  end.

(** [k in d] *)
Definition has_key {V : Type} (k : string) (d : gmap string V) : bool :=
  match d !! k with Some _ => true | None => false end.

(** [line.strip().split('\t')] *)
Definition fields (line : string) : list string :=
  PyStr.split PyStr.TAB (PyStr.strip line).

(** [x if x != '\\N' else ''] *)
Definition unless_sentinel (x : string) : string :=
  if String.eqb x PyStr.SENTINEL then EmptyString else x.

(** ** RatingsIndex: [load_ratings] *)

Definition ratings_line (ratings : gmap string (PyNum.float * Z))
    (line : string) : gmap string (PyNum.float * Z) :=
  let parts := fields line in
  if (3 <=? length parts)%nat then
    let tconst := PyStr.item parts 0 in
    match PyNum.float_of_str (PyStr.item parts 1) with
    | None => ratings
    | Some avg_rating =>
        match PyNum.int (PyStr.item parts 2) with
        | None => ratings
        | Some num_votes => <[tconst := (avg_rating, num_votes)]> ratings
        end
    end
  else ratings.

Definition load_ratings (f : text_stream)
  : result (outcome (gmap string (PyNum.float * Z))) :=
  skip_header_then_each ratings_line ∅ f.

(** ** CrewIndex: [load_crew] *)

Definition crew_line (crew : gmap string (string * string))
    (line : string) : gmap string (string * string) :=
  let parts := fields line in
  if (3 <=? length parts)%nat then
    let tconst := PyStr.item parts 0 in
    let directors := unless_sentinel (PyStr.item parts 1) in
    let writers := unless_sentinel (PyStr.item parts 2) in
    <[tconst := (directors, writers)]> crew
  else crew.

Definition load_crew (f : text_stream)
  : result (outcome (gmap string (string * string))) :=
  skip_header_then_each crew_line ∅ f.

(** ** NameIndex: [load_names] *)

Definition names_line (names : gmap string string) (line : string)
  : gmap string string :=
  let parts := fields line in
  if (2 <=? length parts)%nat then
    let nconst := PyStr.item parts 0 in
    let primary_name := PyStr.item parts 1 in
    <[nconst := primary_name]> names
  else names.

Definition load_names (f : text_stream)
  : result (outcome (gmap string string)) :=
  skip_header_then_each names_line ∅ f.

(** ** PrincipalsIndex: [load_principals] *)

Definition is_performer (category : string) : bool :=
  String.eqb category "actor" || String.eqb category "actress".

Definition principals_line (names : gmap string string)
    (principals : gmap string (list string)) (line : string)
  : gmap string (list string) :=
  let parts := fields line in
  if (4 <=? length parts)%nat then
    let tconst := PyStr.item parts 0 in
    let nconst := PyStr.item parts 2 in
    let category := PyStr.item parts 3 in
    if is_performer category then
      let name := default "Unknown" (names !! nconst) in
      let principals :=
        if has_key tconst principals then principals
        else <[tconst := []]> principals in
      let cast := default [] (principals !! tconst) in
      if (length cast <? 3)%nat
      then <[tconst := cast ++ [name]]> principals
      else principals
    else principals
  else principals.

(** The loop of [load_principals]: the lists before they are joined. *)
Definition principals_lists (names : gmap string string)
    (f : text_stream) : result (outcome (gmap string (list string))) :=
  skip_header_then_each (principals_line names) ∅ f.

Definition load_principals (f : text_stream) (names : gmap string string)
  : result (outcome (gmap string string)) :=
  match principals_lists names f with
  | Raise e => Raise e
  | Ok o => Ok (Outcome (PyStr.join ", " <$> value o) (truncated o))
  end.

(** ** LocaleResolver: [load_languages_and_countries] *)

Record locale_state : Type := LocaleState {
  languages : gmap string string;
  original_languages : gmap string string;
  countries : gmap string string;
  original_countries : gmap string string
}.

Definition locale_init : locale_state := LocaleState ∅ ∅ ∅ ∅.

Definition akas_line (st : locale_state) (line : string) : locale_state :=
  let parts := fields line in
  if (8 <=? length parts)%nat then
    let tconst := PyStr.item parts 0 in
    let region := unless_sentinel (PyStr.item parts 3) in
    let language := unless_sentinel (PyStr.item parts 4) in
    let is_original := String.eqb (PyStr.item parts 7) "1" in
    let '(languages, original_languages) :=
      let languages := languages st in
      let original_languages := original_languages st in
      if PyStr.truthy language then
        if String.eqb language "en" then
          (<[tconst := "en"]> languages,
           if has_key tconst original_languages
           then delete tconst original_languages
           else original_languages)
        else if is_original && negb (has_key tconst languages) then
          (languages, <[tconst := language]> original_languages)
        else if negb (has_key tconst languages)
                && negb (has_key tconst original_languages) then
          (<[tconst := language]> languages, original_languages)
        else (languages, original_languages)
      else (languages, original_languages) in
    let '(countries, original_countries) :=
      let countries := countries st in
      let original_countries := original_countries st in
      if PyStr.truthy region then
        if String.eqb region "US" then
          (<[tconst := "US"]> countries,
           if has_key tconst original_countries
           then delete tconst original_countries
           else original_countries)
        else if is_original && negb (has_key tconst countries) then
          (countries, <[tconst := region]> original_countries)
        else if negb (has_key tconst countries)
                && negb (has_key tconst original_countries) then
          (<[tconst := region]> countries, original_countries)
        else (countries, original_countries)
      else (countries, original_countries) in
    LocaleState languages original_languages countries original_countries
  else st.

(** The loops after the pass:
<<
    for tconst, lang in original_languages.items():
        if tconst not in languages:
            languages[tconst] = lang
>> *)
Definition merge_originals (originals chosen : gmap string string)
  : gmap string string :=
  map_fold (fun tconst code chosen =>
              if has_key tconst chosen then chosen
              else <[tconst := code]> chosen)
           chosen originals.

Definition load_languages_and_countries (f : text_stream)
  : result (outcome (gmap string string * gmap string string)) :=
  match skip_header_then_each akas_line locale_init f with
  | Raise e => Raise e
  | Ok o =>
      let st := value o in
      Ok (Outcome (merge_originals (original_languages st) (languages st),
                   merge_originals (original_countries st) (countries st))
                  (truncated o))
  end.

(** ** MergeJoin: [process_basics] *)

(** The names of the first three ids of a comma-separated id list, the
    ids without a name left out. *)
Definition crew_names (names : gmap string string) (ids : string)
  : list string :=
  if PyStr.truthy ids
  then omap (fun nid => names !! nid) (take 3 (PyStr.split PyStr.COMMA ids))
  else [].

(** [', '.join(l) if l else ''] *)
Definition joined_or_empty (l : list string) : string :=
  match l with
  | [] => EmptyString
  | _ => PyStr.join ", " l
  end.

Definition TABS : string := String PyStr.TAB EmptyString.
Definition NEWLINE : string := String PyStr.LF EmptyString.

Section MergeJoin.

Variable ratings : gmap string (PyNum.float * Z).
Variable crew : gmap string (string * string).
Variable principals : gmap string string.
Variable names : gmap string string.
Variable languages countries : gmap string string.

(** The fourteen fields of the record that a qualifying line gives. *)
Definition record_fields (parts : list string) (rating : PyNum.float * Z)
  : list string :=
  let tconst := PyStr.item parts 0 in
  let primary_title := PyStr.item parts 2 in
  let original_title := PyStr.item parts 3 in
  let is_adult := PyStr.item parts 4 in
  let start_year := PyStr.item parts 5 in
  let runtime_minutes := PyStr.item parts 7 in
  let genres := PyStr.item parts 8 in
  let '(avg_rating, num_votes) := rating in
  let '(directors_ids, writers_ids) :=
    default (EmptyString, EmptyString) (crew !! tconst) in
  let directors := joined_or_empty (crew_names names directors_ids) in
  let writers := joined_or_empty (crew_names names writers_ids) in
  let cast := default EmptyString (principals !! tconst) in
  let language := default EmptyString (languages !! tconst) in
  let country := default EmptyString (countries !! tconst) in
  let original :=
    if negb (String.eqb original_title PyStr.SENTINEL)
       && negb (String.eqb original_title primary_title)
    then original_title else EmptyString in
  let genres_formatted := PyStr.replace PyStr.COMMA PyStr.PIPE genres in
  [ tconst; primary_title; original; start_year;
    PyNum.format_1f avg_rating; PyStr.of_int num_votes;
    runtime_minutes +:+ " mins."; genres_formatted;
    directors; writers; cast; language; country; is_adult ].

(** One turn of the loop: what is written for the line, if anything. *)
Definition basics_line (line : string) : option string :=
  let parts := fields line in
  if (length parts <? 9)%nat then None
  else
    let tconst := PyStr.item parts 0 in
    let title_type := PyStr.item parts 1 in
    let start_year := PyStr.item parts 5 in
    let runtime_minutes := PyStr.item parts 7 in
    let genres := PyStr.item parts 8 in
    if negb (String.eqb title_type "movie") then None
    else
      match ratings !! tconst with
      | None => None
      | Some rating =>
          if String.eqb start_year PyStr.SENTINEL
             || String.eqb runtime_minutes PyStr.SENTINEL
             || String.eqb genres PyStr.SENTINEL
          then None
          else Some (PyStr.join TABS (record_fields parts rating)
                     +:+ NEWLINE)
      end.

(** The texts written to the output file, in order. *)
Definition basics_step (written : list string) (line : string)
  : list string :=
  match basics_line line with
  | Some text => written ++ [text]
  | None => written
  end.

Definition process_basics (basics_file : text_stream)
  : result (outcome (list string)) :=
  skip_header_then_each basics_step [] basics_file.

End MergeJoin.

(** ** The data path of [main] *)

Record sources : Type := Sources {
  ratings_gz : text_stream;
  crew_gz : text_stream;
  names_gz : text_stream;
  principals_gz : text_stream;
  akas_gz : text_stream;
  basics_gz : text_stream
}.

Definition bind {A B : Type} (r : result A) (k : A -> result B) : result B :=
  match r with
  | Ok a => k a
  | Raise e => Raise e
  end.

Notation "x <~ r ; k" := (bind r (fun x => k))
  (at level 100, r at next level, right associativity, only parsing).

(** [main] without the downloads, the clean-up and the messages: the
    lines of the output file, or the exception that ends the run. *)
Definition run (src : sources) : result (list string) :=
  ratings <~ load_ratings (ratings_gz src);
  crew <~ load_crew (crew_gz src);
  names <~ load_names (names_gz src);
  principals <~ load_principals (principals_gz src) (value names);
  locale <~ load_languages_and_countries (akas_gz src);
  out <~ process_basics (value ratings) (value crew) (value principals)
           (value names) (fst (value locale)) (snd (value locale))
           (basics_gz src);
  Ok (value out).

(** ** [main]: downloads, stages and clean-up *)

Definition BASICS_URL : string :=
  "https://datasets.imdbws.com/title.basics.tsv.gz".
Definition RATINGS_URL : string :=
  "https://datasets.imdbws.com/title.ratings.tsv.gz".
Definition CREW_URL : string :=
  "https://datasets.imdbws.com/title.crew.tsv.gz".
Definition PRINCIPALS_URL : string :=
  "https://datasets.imdbws.com/title.principals.tsv.gz".
Definition NAMES_URL : string :=
  "https://datasets.imdbws.com/name.basics.tsv.gz".
Definition AKAS_URL : string :=
  "https://datasets.imdbws.com/title.akas.tsv.gz".

Definition BASICS_GZ : string := "title.basics.tsv.gz".
Definition RATINGS_GZ : string := "title.ratings.tsv.gz".
Definition CREW_GZ : string := "title.crew.tsv.gz".
Definition PRINCIPALS_GZ : string := "title.principals.tsv.gz".
Definition NAMES_GZ : string := "name.basics.tsv.gz".
Definition AKAS_GZ : string := "title.akas.tsv.gz".

(** The working directory as far as [main] touches it: the archives
    under their file names, and the lines of [imdb_dataset.txt] when
    that file exists. *)
Record disk : Type := Disk {
  archives : gmap string text_stream;
  dataset : option (list string)
}.

(** What [urlretrieve] does for a URL: it stores the whole archive under
    the file name, or it raises, with nothing or with a part of the
    archive left under the file name. *)
Inductive fetch : Type :=
| Fetched (f : text_stream)
| Broken (left : option text_stream).

(** Why a run ends in the handler [except Exception]. *)
Inductive failure : Type :=
| DownloadFailed
| NoSuchFile
| StageFailed (e : exn).

Inductive exit : Type := Success | Error (why : failure).

(** A piece of [main]: it changes the directory and gives a value, or
    raises. *)
Definition script (A : Type) : Type := disk -> disk * (A + failure).

Definition give {A : Type} (a : A) : script A := fun d => (d, inl a).

Definition and_then {A B : Type} (m : script A) (k : A -> script B)
  : script B :=
  fun d =>
    match m d with
    | (d', inl a) => k a d'
    | (d', inr why) => (d', inr why)
    end.

Notation "x <<- m ;; k" := (and_then m (fun x => k))
  (at level 100, m at next level, right associativity, only parsing).

(** [download_file(url, filename)], without its messages. *)
Definition download_file (remote : string -> fetch) (url filename : string)
  : script unit :=
  fun d =>
    match remote url with
    | Fetched f =>
        (Disk (<[filename := f]> (archives d)) (dataset d), inl tt)
    | Broken (Some part) =>
        (Disk (<[filename := part]> (archives d)) (dataset d),
         inr DownloadFailed)
    | Broken None => (d, inr DownloadFailed)
    end.

(** [if not os.path.exists(filename): ...] *)
Definition unless_exists (filename : string) (m : script unit)
  : script unit :=
  fun d => if has_key filename (archives d) then (d, inl tt) else m d.

(** [gzip.open(filename, 'rt', encoding='utf-8')] *)
Definition gzip_open (filename : string) : script text_stream :=
  fun d =>
    match archives d !! filename with
    | Some f => (d, inl f)
    | None => (d, inr NoSuchFile)
    end.

(** A stage of the pipeline: its exception, if any, ends the run. *)
Definition stage {A : Type} (r : result (outcome A)) : script A :=
  fun d =>
    match r with
    | Ok o => (d, inl (value o))
    | Raise e => (d, inr (StageFailed e))
    end.

(** [process_basics] writes its lines to the output file, which it
    opens after the header of the archive was read: the [EOFError] of a
    cut header, the one exception that the stage raises here, leaves
    the file as it was. *)
Definition write_dataset (r : result (outcome (list string)))
  : script unit :=
  fun d =>
    match r with
    | Ok o => (Disk (archives d) (Some (value o)), inl tt)
    | Raise e => (d, inr (StageFailed e))
    end.

(** The archives in the order of the clean-up loop. *)
Definition temporary_files : list string :=
  [BASICS_GZ; RATINGS_GZ; CREW_GZ; PRINCIPALS_GZ; NAMES_GZ; AKAS_GZ].

(** The clean-up loop: every archive that exists is removed. *)
Definition cleanup : script unit :=
  fun d =>
    (Disk (fold_left (fun files gz_file =>
                        if has_key gz_file files then delete gz_file files
                        else files)
                     temporary_files (archives d))
          (dataset d),
     inl tt).

Definition main_body (remote : string -> fetch) : script unit :=
  _ <<- unless_exists RATINGS_GZ
          (download_file remote RATINGS_URL RATINGS_GZ);;
  ratings_file <<- gzip_open RATINGS_GZ;;
  ratings <<- stage (load_ratings ratings_file);;
  _ <<- unless_exists CREW_GZ (download_file remote CREW_URL CREW_GZ);;
  crew_file <<- gzip_open CREW_GZ;;
  crew <<- stage (load_crew crew_file);;
  _ <<- unless_exists NAMES_GZ (download_file remote NAMES_URL NAMES_GZ);;
  names_file <<- gzip_open NAMES_GZ;;
  names <<- stage (load_names names_file);;
  _ <<- unless_exists PRINCIPALS_GZ
          (download_file remote PRINCIPALS_URL PRINCIPALS_GZ);;
  principals_file <<- gzip_open PRINCIPALS_GZ;;
  principals <<- stage (load_principals principals_file names);;
  _ <<- unless_exists AKAS_GZ (download_file remote AKAS_URL AKAS_GZ);;
  akas_file <<- gzip_open AKAS_GZ;;
  locale <<- stage (load_languages_and_countries akas_file);;
  _ <<- unless_exists BASICS_GZ
          (download_file remote BASICS_URL BASICS_GZ);;
  basics_file <<- gzip_open BASICS_GZ;;
  _ <<- write_dataset
          (process_basics ratings crew principals names locale.1 locale.2
             basics_file);;
  cleanup.

(** [main]: the directory it leaves and how it ends; the exceptions are
    caught and reported, nothing is undone. *)
Definition main (remote : string -> fetch) (d : disk) : disk * exit :=
  match main_body remote d with
  | (d', inl _) => (d', Success)
  | (d', inr why) => (d', Error why)
  end.

(** * Notions used in the statements *)

(** A row of a source file: its fields joined by tabs, with the line
    feed that the file iterator leaves at the end of a line. *)
Definition row (cells : list string) : string :=
  PyStr.join TABS cells +:+ NEWLINE.

(** A complete file: a header line, then the given lines. *)
Definition whole (header : string) (lines : list string) : text_stream :=
  TextStream (header :: lines) EndOfFile.

(** A file cut after the header and the given lines. *)
Definition cut_after (header : string) (lines : list string) : text_stream :=
  TextStream (header :: lines) Truncated.

(** The rating 8.5 as a binary64: 4785074604081152 * 2^-49. *)
Definition rating_8_5 : PyNum.float :=
  S754_finite false 4785074604081152 (-49).

(** The last field of a written line, as a reader of the output file
    finds it: the line without its line feed, cut at the tabs. *)
Fixpoint chomp (text : string) : string :=
  match text with
  | EmptyString => EmptyString
  | String c rest =>
      match rest with
      | EmptyString =>
          if Ascii.eqb c PyStr.LF then EmptyString else text
      | String _ _ => String c (chomp rest)
      end
  end.

Definition final_field (text : string) : string :=
  List.last (PyStr.split PyStr.TAB (chomp text)) EmptyString.

(** The title-attributes row, the indexes and the output line of the
    end-to-end scenario. *)
Definition foo_cells : list string :=
  ["tt0000001"; "movie"; "Foo"; PyStr.SENTINEL; "0"; "1999";
   PyStr.SENTINEL; "90"; "Drama,Comedy"].

Definition foo_ratings : gmap string (PyNum.float * Z) :=
  {[ "tt0000001" := (rating_8_5, 1000) ]}.

Definition foo_crew : gmap string (string * string) :=
  {[ "tt0000001" := ("nm01,nm02", EmptyString) ]}.

Definition foo_names : gmap string string :=
  <["nm01" := "Ada"]> {[ "nm02" := "Bob" ]}.

Definition foo_text : string :=
  row ["tt0000001"; "Foo"; EmptyString; "1999"; "8.5"; "1000"; "90 mins.";
       "Drama|Comedy"; "Ada, Bob"; EmptyString; EmptyString; EmptyString;
       EmptyString; "0"].

(** The six source files of the end-to-end scenario. *)
Definition scenario : sources :=
  Sources
    (whole (row ["tconst"; "averageRating"; "numVotes"])
           [row ["tt0000001"; "8.5"; "1000"]])
    (whole (row ["tconst"; "directors"; "writers"])
           [row ["tt0000001"; "nm01,nm02"; PyStr.SENTINEL]])
    (whole (row ["nconst"; "primaryName"])
           [row ["nm01"; "Ada"]; row ["nm02"; "Bob"]])
    (whole (row ["tconst"; "ordering"; "nconst"; "category"]) [])
    (whole (row ["titleId"; "ordering"; "title"; "region"; "language";
                 "types"; "attributes"; "isOriginalTitle"]) [])
    (whole (row ["tconst"; "titleType"; "primaryTitle"; "originalTitle";
                 "isAdult"; "startYear"; "endYear"; "runtimeMinutes";
                 "genres"])
           [row foo_cells]).

(** The entry that a line of the ratings source carries, if it is well
    formed: at least three fields, the second one a number for [float]
    and the third one a number for [int]. *)
Definition rating_entry (line : string)
  : option (string * (PyNum.float * Z)) :=
  let parts := fields line in
  if (3 <=? length parts)%nat then
    avg_rating ← PyNum.float_of_str (PyStr.item parts 1);
    num_votes ← PyNum.int (PyStr.item parts 2);
    Some (PyStr.item parts 0, (avg_rating, num_votes))
  else None.

(** The display name that a line of the principals source adds to the
    cast of [tconst]: the line has at least four fields, it is about
    [tconst], and its category is [actor] or [actress]; the name is the
    one of NameIndex, or ["Unknown"]. *)
Definition performer_of (names : gmap string string) (tconst : string)
    (line : string) : option string :=
  let parts := fields line in
  if (4 <=? length parts)%nat
     && String.eqb (PyStr.item parts 0) tconst
     && is_performer (PyStr.item parts 3)
  then Some (default "Unknown" (names !! PyStr.item parts 2))
  else None.

(** The performers of [tconst] in source order, all of them. *)
Definition performers (names : gmap string string) (tconst : string)
    (lines : list string) : list string :=
  omap (performer_of names tconst) lines.

(** The principals rows A (actor), B (director), C (actress), D (actor),
    E (actress) of one title, and a NameIndex for them. *)
Definition cast_rows : list string :=
  [row ["tt0000001"; "1"; "nm0A"; "actor"; PyStr.SENTINEL; "lead"];
   row ["tt0000001"; "2"; "nm0B"; "director"; PyStr.SENTINEL; PyStr.SENTINEL];
   row ["tt0000001"; "3"; "nm0C"; "actress"; PyStr.SENTINEL; PyStr.SENTINEL];
   row ["tt0000001"; "4"; "nm0D"; "actor"; PyStr.SENTINEL; PyStr.SENTINEL];
   row ["tt0000001"; "5"; "nm0E"; "actress"; PyStr.SENTINEL; PyStr.SENTINEL]].

Definition cast_names : gmap string string :=
  <["nm0A" := "A"]> (<["nm0B" := "B"]> (<["nm0C" := "C"]>
    (<["nm0D" := "D"]> {[ "nm0E" := "E" ]}))).

Definition principals_header : string :=
  row ["tconst"; "ordering"; "nconst"; "category"; "job"; "characters"].

(** The policy that [akas_line] applies twice, to the language with
    [en] and to the region with [US]. *)
Definition prefer (canonical tconst code : string) (is_original : bool)
    (chosen originals : gmap string string)
  : gmap string string * gmap string string :=
  if PyStr.truthy code then
    if String.eqb code canonical then
      (<[tconst := canonical]> chosen,
       if has_key tconst originals then delete tconst originals
       else originals)
    else if is_original && negb (has_key tconst chosen) then
      (chosen, <[tconst := code]> originals)
    else if negb (has_key tconst chosen) && negb (has_key tconst originals)
    then (<[tconst := code]> chosen, originals)
    else (chosen, originals)
  else (chosen, originals).

(** The canonical value is installed for a title, and no tentative
    original value is held for it. *)
Definition settled (canonical tconst : string)
    (pair : gmap string string * gmap string string) : Prop :=
  pair.1 !! tconst = Some canonical /\ pair.2 !! tconst = None.

(** The two dictionaries of a code family. *)
Definition language_pair (st : locale_state) :=
  (languages st, original_languages st).

Definition country_pair (st : locale_state) :=
  (countries st, original_countries st).

(** A line that carries the canonical language, or region, of a title. *)
Definition english_row (tconst line : string) : Prop :=
  (8 <= length (fields line))%nat
  /\ PyStr.item (fields line) 0 = tconst
  /\ PyStr.item (fields line) 4 = "en".

Definition us_row (tconst line : string) : Prop :=
  (8 <= length (fields line))%nat
  /\ PyStr.item (fields line) 0 = tconst
  /\ PyStr.item (fields line) 3 = "US".

Definition akas_header : string :=
  row ["titleId"; "ordering"; "title"; "region"; "language"; "types";
       "attributes"; "isOriginalTitle"].

(** A row of the alternate-titles source for title [tt0000001] with the
    given region, language and is-original flag. *)
Definition aka (region language is_original : string) : string :=
  row ["tt0000001"; "1"; "Title"; region; language; PyStr.SENTINEL;
       PyStr.SENTINEL; is_original].

(** The language and the country resolved for [tt0000001] from the given
    rows. *)
Definition resolved (rows : list string)
  : option (option string * option string) :=
  match load_languages_and_countries (whole akas_header rows) with
  | Ok o => Some ((value o).1 !! "tt0000001", (value o).2 !! "tt0000001")
  | Raise _ => None
  end.

(** The scenario again, with one person whose primaryName is the
    sentinel, credited as director and as actor. *)
Definition unnamed_person : sources :=
  Sources
    (ratings_gz scenario)
    (whole (row ["tconst"; "directors"; "writers"])
           [row ["tt0000001"; "nm01"; PyStr.SENTINEL]])
    (whole (row ["nconst"; "primaryName"; "birthYear"; "deathYear";
                 "primaryProfession"; "knownForTitles"])
           [row ["nm01"; PyStr.SENTINEL; "1900"; PyStr.SENTINEL; "actor";
                 "tt0000001"]])
    (whole principals_header
           [row ["tt0000001"; "1"; "nm01"; "actor"; PyStr.SENTINEL;
                 PyStr.SENTINEL]])
    (akas_gz scenario)
    (basics_gz scenario).

(** ** Notions of the further properties *)

(** What a line of the alternate-titles source says about the code of
    [tconst] held in the given column (4 for the language, 3 for the
    region): the code and the is-original flag, when the line has eight
    fields, is about [tconst], and the code is neither empty nor the
    sentinel. *)
Definition locale_row (column : nat) (tconst line : string)
  : option (string * bool) :=
  let parts := fields line in
  let code := unless_sentinel (PyStr.item parts column) in
  if (8 <=? length parts)%nat
     && String.eqb (PyStr.item parts 0) tconst
     && PyStr.truthy code
  then Some (code, String.eqb (PyStr.item parts 7) "1")
  else None.

Definition locale_rows (column : nat) (tconst : string)
    (lines : list string) : list (string * bool) :=
  omap (locale_row column tconst) lines.

(** The code of the last row flagged as original. *)
Definition last_original (rows : list (string * bool)) : option string :=
  last (map fst (List.filter snd rows)).

(** The outcome of the priority policy on the rows of one title, in
    source order. *)
Definition resolve (canonical : string) (rows : list (string * bool))
  : option string :=
  if existsb (fun r => String.eqb r.1 canonical) rows then Some canonical
  else
    match rows with
    | [] => None
    | (code, false) :: _ => Some code
    | (_, true) :: _ => last_original rows
    end.

(** The two dictionary entries of one title, and what a row of the title
    does to them. *)
Definition key_step (canonical : string)
    (entry : option string * option string) (r : string * bool)
  : option string * option string :=
  let '(chosen, held) := entry in
  let '(code, is_original) := r in
  if String.eqb code canonical then (Some canonical, None)
  else if is_original && negb (bool_decide (is_Some chosen)) then
    (chosen, Some code)
  else if negb (bool_decide (is_Some chosen))
          && negb (bool_decide (is_Some held)) then
    (Some code, held)
  else (chosen, held).

(** The entries of a title after its rows, starting from none. *)
Definition entry_after (canonical : string) (rows : list (string * bool))
  : option string * option string :=
  if existsb (fun r => String.eqb r.1 canonical) rows
  then (Some canonical, None)
  else
    match rows with
    | [] => (None, None)
    | (code, false) :: _ => (Some code, None)
    | (_, true) :: _ => (None, last_original rows)
    end.


(** The entry that a line of the names source carries: its first two
    fields, when it has at least two. *)
Definition name_entry (line : string) : option (string * string) :=
  let parts := fields line in
  if (2 <=? length parts)%nat
  then Some (PyStr.item parts 0, PyStr.item parts 1)
  else None.

(** The entry that a line of the crew source carries: its first field
    and the two id lists, the sentinel read as no ids, when it has at
    least three fields. *)
Definition crew_entry (line : string)
  : option (string * (string * string)) :=
  let parts := fields line in
  if (3 <=? length parts)%nat
  then Some (PyStr.item parts 0,
             (unless_sentinel (PyStr.item parts 1),
              unless_sentinel (PyStr.item parts 2)))
  else None.

(** A loop body that stores the entry of a line, if it has one. *)
Definition store {V : Type} (entry : string -> option (string * V))
    (index : gmap string V) (line : string) : gmap string V :=
  match entry line with
  | Some (key, v) => <[key := v]> index
  | None => index
  end.

(** No line of the list carries an entry for the key. *)
Definition silent_on {V : Type} (entry : string -> option (string * V))
    (key : string) (lines : list string) : Prop :=
  forall line v, line ∈ lines -> entry line <> Some (key, v).


(** The filters of MergeJoin on the fields of a line. *)
Definition passes (ratings : gmap string (PyNum.float * Z))
    (parts : list string) : bool :=
  (9 <=? length parts)%nat
  && String.eqb (PyStr.item parts 1) "movie"
  && has_key (PyStr.item parts 0) ratings
  && negb (String.eqb (PyStr.item parts 5) PyStr.SENTINEL)
  && negb (String.eqb (PyStr.item parts 7) PyStr.SENTINEL)
  && negb (String.eqb (PyStr.item parts 8) PyStr.SENTINEL).


(** [c in s] for a character. *)
Fixpoint has_char (c : ascii) (s : string) : bool :=
  match s with
  | EmptyString => false
  | String x rest => Ascii.eqb x c || has_char c rest
  end.

(** No value of the dictionary holds a tab. *)
Definition tab_free_values (d : gmap string string) : Prop :=
  forall key v, d !! key = Some v -> has_char PyStr.TAB v = false.

(** The fields of a written line, as a reader finds them. *)
Definition read_back (text : string) : list string :=
  PyStr.split PyStr.TAB (chomp text).


(** The archive that [main] reads under a file name: the one in the
    directory when there is one, else the one fetched from the URL. *)
Definition supplied (remote : string -> fetch) (d : disk)
    (url filename : string) (f : text_stream) : Prop :=
  archives d !! filename = Some f
  \/ (archives d !! filename = None /\ remote url = Fetched f).

(** The six archives that a run of [main] reads. *)
Definition supplied_sources (remote : string -> fetch) (d : disk)
    (src : sources) : Prop :=
  supplied remote d RATINGS_URL RATINGS_GZ (ratings_gz src)
  /\ supplied remote d CREW_URL CREW_GZ (crew_gz src)
  /\ supplied remote d NAMES_URL NAMES_GZ (names_gz src)
  /\ supplied remote d PRINCIPALS_URL PRINCIPALS_GZ (principals_gz src)
  /\ supplied remote d AKAS_URL AKAS_GZ (akas_gz src)
  /\ supplied remote d BASICS_URL BASICS_GZ (basics_gz src).

(** A server that hands out the archives of the end-to-end scenario. *)
Definition scenario_remote (url : string) : fetch :=
  if String.eqb url RATINGS_URL then Fetched (ratings_gz scenario)
  else if String.eqb url CREW_URL then Fetched (crew_gz scenario)
  else if String.eqb url NAMES_URL then Fetched (names_gz scenario)
  else if String.eqb url PRINCIPALS_URL
  then Fetched (principals_gz scenario)
  else if String.eqb url AKAS_URL then Fetched (akas_gz scenario)
  else if String.eqb url BASICS_URL then Fetched (basics_gz scenario)
  else Broken None.

(** A directory that holds the six archives of the scenario. *)
Definition scenario_disk : disk :=
  Disk (<[RATINGS_GZ := ratings_gz scenario]>
        (<[CREW_GZ := crew_gz scenario]>
         (<[NAMES_GZ := names_gz scenario]>
          (<[PRINCIPALS_GZ := principals_gz scenario]>
           (<[AKAS_GZ := akas_gz scenario]>
            {[ BASICS_GZ := basics_gz scenario ]})))))
       None.






(** * Properties *)

(** ** Strings *)

Section StringFacts.

Lemma append_nil (b : string) : EmptyString +:+ b = b.
Proof. reflexivity. Qed.

Lemma append_cons (x : ascii) (a b : string) :
  String x a +:+ b = String x (a +:+ b).
Proof. reflexivity. Qed.

Lemma append_assoc (a b c : string) : (a +:+ b) +:+ c = a +:+ (b +:+ c).
Proof.
  induction a as [|x a IH]; [done|].
  rewrite !append_cons. by rewrite IH.
Qed.

Lemma chomp_newline (a : string) : chomp (a +:+ NEWLINE) = a.
Proof.
  induction a as [|x a IH]; [done|].
  rewrite append_cons. simpl chomp. rewrite IH.
  by destruct a.
Qed.

Variable sep : ascii.

Lemma split_not_nil (s : string) : PyStr.split sep s <> [].
Proof.
  destruct s as [|c s]; simpl; [done|].
  destruct (Ascii.eqb c sep); [done|].
  by destruct (PyStr.split sep s).
Qed.

Lemma split_app (a b : string) :
  PyStr.split sep (a +:+ String sep b)
  = PyStr.split sep a ++ PyStr.split sep b.
Proof.
  induction a as [|c a IH]; [rewrite append_nil | rewrite append_cons];
    simpl.
  - by rewrite Ascii.eqb_refl.
  - destruct (Ascii.eqb c sep); [by rewrite IH|].
    rewrite IH.
    pose proof (split_not_nil a) as Hne.
    by destruct (PyStr.split sep a).
Qed.

(** A field obtained by cutting at [sep] holds no [sep]: cutting it
    again gives the field itself. *)
Lemma split_field_whole (s x : string) :
  In x (PyStr.split sep s) -> PyStr.split sep x = [x].
Proof.
  revert x. induction s as [|c s IH]; intros x; simpl.
  - by intros [<-|[]].
  - destruct (Ascii.eqb c sep) eqn:Hc.
    + intros [<-|Hin]; [done | by apply IH].
    + pose proof (split_not_nil s) as Hne.
      destruct (PyStr.split sep s) as [|y ys] eqn:Hs; [done|].
      intros [<-|Hin].
      * simpl. rewrite Hc. by rewrite (IH y (or_introl eq_refl)).
      * apply IH. by right.
Qed.

Lemma split_join (l : list string) :
  l <> [] ->
  PyStr.split sep (PyStr.join (String sep EmptyString) l)
  = flat_map (PyStr.split sep) l.
Proof.
  induction l as [|a l IH]; [done|]. intros _.
  destruct l as [|b l].
  - simpl. by rewrite app_nil_r.
  - change (PyStr.join (String sep EmptyString) (a :: b :: l))
      with (a +:+ String sep (PyStr.join (String sep EmptyString) (b :: l))).
    rewrite split_app, IH; done.
Qed.

End StringFacts.

Lemma join_first (sep a b : string) (l : list string) :
  PyStr.join sep (a :: b :: l) = a +:+ sep +:+ PyStr.join sep (b :: l).
Proof. reflexivity. Qed.

Lemma last_app_singleton {A : Type} (l : list A) (x d : A) :
  List.last (l ++ [x]) d = x.
Proof. induction l as [|y l IH]; [done|]. simpl. rewrite IH. by destruct l. Qed.

Lemma omap_cons_Some {A B : Type} (f : A -> option B) (x : A) (y : B)
    (l : list A) :
  f x = Some y -> omap f (x :: l) = y :: omap f l.
Proof. intros Hx. simpl. by rewrite Hx. Qed.

Lemma omap_cons_None {A B : Type} (f : A -> option B) (x : A) (l : list A) :
  f x = None -> omap f (x :: l) = omap f l.
Proof. intros Hx. simpl. by rewrite Hx. Qed.

Lemma final_field_join (front : list string) (x : string) :
  PyStr.split PyStr.TAB x = [x] ->
  final_field (PyStr.join TABS (front ++ [x]) +:+ NEWLINE) = x.
Proof.
  intros Hx. unfold final_field. rewrite chomp_newline.
  unfold TABS. rewrite split_join by (by destruct front).
  rewrite flat_map_app. simpl. rewrite Hx. simpl.
  apply last_app_singleton.
Qed.

(** ** The frame of the stages *)

Lemma skip_header_then_each_cons {S : Type} (body : S -> string -> S)
    (init : S) (header : string) (lines : list string) (e : stream_end) :
  skip_header_then_each body init (TextStream (header :: lines) e)
  = Ok (Outcome (fold_left body lines init) (was_cut e)).
Proof. reflexivity. Qed.

Lemma skip_header_then_each_empty {S : Type} (body : S -> string -> S)
    (init : S) :
  skip_header_then_each body init (TextStream [] EndOfFile)
  = Ok (Outcome init false)
  /\ skip_header_then_each body init (TextStream [] Truncated)
     = Raise EOFError.
Proof. split; reflexivity. Qed.

(** ** MergeJoin *)

Section MergeJoinFacts.

Variable ratings : gmap string (PyNum.float * Z).
Variable crew : gmap string (string * string).
Variable principals : gmap string string.
Variable names : gmap string string.
Variable languages countries : gmap string string.

Local Abbreviation basics_line' :=
  (basics_line ratings crew principals names languages countries).
Local Abbreviation basics_step' :=
  (basics_step ratings crew principals names languages countries).
Local Abbreviation process_basics' :=
  (process_basics ratings crew principals names languages countries).

Lemma basics_loop (lines : list string) (written : list string) :
  fold_left basics_step' lines written
  = written ++ omap basics_line' lines.
Proof.
  revert written.
  induction lines as [|line lines IH]; intros written; simpl.
  - by rewrite app_nil_r.
  - rewrite IH. unfold basics_step.
    destruct basics_line'; simpl; [by rewrite <- app_assoc | done].
Qed.

Lemma process_basics_written (header : string) (lines : list string)
    (e : stream_end) :
  process_basics' (TextStream (header :: lines) e)
  = Ok (Outcome (omap basics_line' lines) (was_cut e)).
Proof.
  unfold process_basics. rewrite skip_header_then_each_cons.
  by rewrite basics_loop.
Qed.

(** What a written line says about the line it comes from. *)
Lemma basics_line_Some (line text : string) :
  basics_line' line = Some text ->
  (9 <= length (fields line))%nat
  /\ PyStr.item (fields line) 1 = "movie"
  /\ PyStr.item (fields line) 5 <> PyStr.SENTINEL
  /\ PyStr.item (fields line) 7 <> PyStr.SENTINEL
  /\ PyStr.item (fields line) 8 <> PyStr.SENTINEL
  /\ exists rating,
       ratings !! PyStr.item (fields line) 0 = Some rating
       /\ text = PyStr.join TABS
                   (record_fields crew principals names languages
                      countries (fields line) rating) +:+ NEWLINE.
Proof.
  unfold basics_line.
  destruct (length (fields line) <? 9)%nat eqn:Hlen; [done|].
  apply Nat.ltb_ge in Hlen.
  destruct (String.eqb (PyStr.item (fields line) 1) "movie") eqn:Htype;
    [|done].
  apply String.eqb_eq in Htype. simpl.
  destruct (ratings !! PyStr.item (fields line) 0) as [rating|]; [|done].
  destruct (String.eqb (PyStr.item (fields line) 5) PyStr.SENTINEL)
    eqn:Hyear; [done|].
  destruct (String.eqb (PyStr.item (fields line) 7) PyStr.SENTINEL)
    eqn:Hrun; [done|].
  destruct (String.eqb (PyStr.item (fields line) 8) PyStr.SENTINEL)
    eqn:Hgen; [done|].
  apply String.eqb_neq in Hyear, Hrun, Hgen. simpl.
  intros [= <-]. repeat split; try done. by exists rating.
Qed.

End MergeJoinFacts.

(** ** The inclusion filter of MergeJoin *)

(** C6.  A line of the title-attributes source gives an output record
    only if its title type is [movie], its TitleId has an entry in
    RatingsIndex, and none of its release year, runtime and genres is
    the sentinel; a line with another title type gives none; and the
    pass over a stream whose header was read always completes, its
    output being what the lines that pass give, in order: a line that
    fails is skipped and the pass goes on. *)
Theorem C6_only_rated_movies_are_written
    (ratings : gmap string (PyNum.float * Z))
    (crew : gmap string (string * string))
    (principals names languages countries : gmap string string) :
  (forall line text,
     basics_line ratings crew principals names languages countries line
     = Some text ->
     PyStr.item (fields line) 1 = "movie"
     /\ is_Some (ratings !! PyStr.item (fields line) 0)
     /\ PyStr.item (fields line) 5 <> PyStr.SENTINEL
     /\ PyStr.item (fields line) 7 <> PyStr.SENTINEL
     /\ PyStr.item (fields line) 8 <> PyStr.SENTINEL)
  /\ (forall line,
        PyStr.item (fields line) 1 <> "movie" ->
        basics_line ratings crew principals names languages countries line
        = None)
  /\ (forall header lines e,
        process_basics ratings crew principals names languages countries
          (TextStream (header :: lines) e)
        = Ok (Outcome
                (omap (basics_line ratings crew principals names languages
                         countries) lines)
                (was_cut e))).
Proof.
  split; [|split].
  - intros line text Hline.
    apply basics_line_Some in Hline
      as (_ & Htype & Hyear & Hrun & Hgen & rating & Hrating & _).
    split_and!; eauto.
  - intros line Htype.
    destruct (basics_line ratings crew principals names languages countries
                line) as [text|] eqn:Hline; [|done].
    apply basics_line_Some in Hline as (_ & Hmovie & _). done.
  - apply process_basics_written.
Qed.

Lemma C6_only_rated_movies_are_written_witness :
  basics_line foo_ratings foo_crew ∅ foo_names ∅ ∅ (row foo_cells)
  = Some foo_text
  /\ PyStr.item (fields (row foo_cells)) 1 = "movie"
  /\ is_Some (foo_ratings !! PyStr.item (fields (row foo_cells)) 0)
  /\ basics_line foo_ratings foo_crew ∅ foo_names ∅ ∅
       (row ["tt0000001"; "short"; "Foo"; "Foo"; "0"; "1999";
             PyStr.SENTINEL; "9"; "Drama"])
     = None.
Proof.
  pose proof (C6_only_rated_movies_are_written
                foo_ratings foo_crew ∅ foo_names ∅ ∅)
    as (Hsome & Hnone & _).
  assert (basics_line foo_ratings foo_crew ∅ foo_names ∅ ∅ (row foo_cells)
          = Some foo_text) as Hfoo by (vm_compute; reflexivity).
  destruct (Hsome _ _ Hfoo) as (Htype & Hrated & _).
  split; [exact Hfoo|]. split; [exact Htype|]. split; [exact Hrated|].
  apply Hnone. vm_compute. discriminate.
Defined.

(** ** No deduplication in MergeJoin *)

(** C10.  The pass keeps no memory of the TitleIds it has written: the
    output is what each line gives by itself, so two lines with the same
    TitleId that both pass the filters give two output lines, both
    starting with that TitleId. *)
Theorem C10_same_title_written_twice
    (ratings : gmap string (PyNum.float * Z))
    (crew : gmap string (string * string))
    (principals names languages countries : gmap string string)
    (header : string) (before between after : list string)
    (line1 line2 text1 text2 : string) (e : stream_end) :
  basics_line ratings crew principals names languages countries line1
  = Some text1 ->
  basics_line ratings crew principals names languages countries line2
  = Some text2 ->
  PyStr.item (fields line1) 0 = PyStr.item (fields line2) 0 ->
  let join := basics_line ratings crew principals names languages countries in
  process_basics ratings crew principals names languages countries
    (TextStream (header :: before ++ line1 :: between ++ line2 :: after) e)
  = Ok (Outcome (omap join before ++ text1 :: omap join between
                 ++ text2 :: omap join after) (was_cut e))
  /\ exists rest1 rest2,
       text1 = PyStr.item (fields line1) 0 +:+ TABS +:+ rest1
       /\ text2 = PyStr.item (fields line1) 0 +:+ TABS +:+ rest2.
Proof.
  intros H1 H2 Hid join. subst join. split.
  - rewrite process_basics_written. f_equal. f_equal.
    rewrite omap_app, (omap_cons_Some _ _ _ _ H1).
    by rewrite omap_app, (omap_cons_Some _ _ _ _ H2).
  - apply basics_line_Some in H1 as (_ & _ & _ & _ & _ & r1 & _ & ->).
    apply basics_line_Some in H2 as (_ & _ & _ & _ & _ & r2 & _ & ->).
    unfold record_fields. rewrite <- Hid.
    destruct r1 as [a1 v1], r2 as [a2 v2].
    destruct (default _ (crew !! PyStr.item (fields line1) 0)) as [d1 w1].
    rewrite !join_first, !append_assoc.
    eexists _, _. split; reflexivity.
Qed.

Lemma C10_same_title_written_twice_witness :
  process_basics foo_ratings foo_crew ∅ foo_names ∅ ∅
    (whole "header" [row foo_cells; row foo_cells])
  = Ok (Outcome [foo_text; foo_text] false).
Proof.
  assert (basics_line foo_ratings foo_crew ∅ foo_names ∅ ∅ (row foo_cells)
          = Some foo_text) as Hfoo by (vm_compute; reflexivity).
  exact (proj1 (C10_same_title_written_twice
                  foo_ratings foo_crew ∅ foo_names ∅ ∅
                  "header" [] [] [] (row foo_cells) (row foo_cells)
                  foo_text foo_text EndOfFile Hfoo Hfoo eq_refl)).
Defined.

(** ** The adult-content flag of the output *)

Lemma record_fields_last
    (crew : gmap string (string * string))
    (principals names languages countries : gmap string string)
    (parts : list string) (rating : PyNum.float * Z) :
  exists front,
    record_fields crew principals names languages countries parts rating
    = front ++ [PyStr.item parts 4].
Proof.
  unfold record_fields. destruct rating as [avg votes].
  destruct (default _ (crew !! PyStr.item parts 0)) as [ds ws].
  by eexists [_; _; _; _; _; _; _; _; _; _; _; _; _].
Qed.

Lemma item_is_field (line : string) (i : nat) :
  (i < length (fields line))%nat ->
  PyStr.split PyStr.TAB (PyStr.item (fields line) i)
  = [PyStr.item (fields line) i].
Proof.
  intros Hi. apply (split_field_whole PyStr.TAB (PyStr.strip line)).
  by apply nth_In.
Qed.

(** C4, as the code has it.  The last field of every written line is the
    isAdult field of the line it comes from, as it stands there: it is
    ["0"] or ["1"] when the source has one of the two, and any other
    token of that column, the sentinel included, is written through. *)
Theorem C4_adult_flag_written_through
    (ratings : gmap string (PyNum.float * Z))
    (crew : gmap string (string * string))
    (principals names languages countries : gmap string string)
    (line text : string) :
  basics_line ratings crew principals names languages countries line
  = Some text ->
  final_field text = PyStr.item (fields line) 4.
Proof.
  intros Hline.
  apply basics_line_Some in Hline
    as (Hlen & _ & _ & _ & _ & rating & _ & ->).
  destruct (record_fields_last crew principals names languages countries
              (fields line) rating) as [front ->].
  apply final_field_join, item_is_field. lia.
Qed.

Lemma C4_adult_flag_written_through_witness :
  final_field foo_text = "0".
Proof.
  assert (basics_line foo_ratings foo_crew ∅ foo_names ∅ ∅ (row foo_cells)
          = Some foo_text) as Hfoo by (vm_compute; reflexivity).
  exact (C4_adult_flag_written_through
           foo_ratings foo_crew ∅ foo_names ∅ ∅ (row foo_cells) foo_text
           Hfoo).
Defined.

(** C4, as the specification has it, fails: a rated movie whose isAdult
    column holds the sentinel is written with the sentinel as its last
    field, which is neither ["0"] nor ["1"]. *)
Lemma C4_adult_flag_counterexample :
  ~ (forall (ratings : gmap string (PyNum.float * Z))
            (crew : gmap string (string * string))
            (principals names languages countries : gmap string string)
            (line text : string),
       basics_line ratings crew principals names languages countries line
       = Some text ->
       final_field text = "0" \/ final_field text = "1").
Proof.
  intros Hclaim.
  pose (line := row ["tt0000001"; "movie"; "Foo"; "Foo"; PyStr.SENTINEL;
                     "1999"; PyStr.SENTINEL; "90"; "Drama"]).
  pose (text := row ["tt0000001"; "Foo"; EmptyString; "1999"; "8.5"; "1000";
                     "90 mins."; "Drama"; EmptyString; EmptyString;
                     EmptyString; EmptyString; EmptyString;
                     PyStr.SENTINEL]).
  assert (basics_line foo_ratings ∅ ∅ ∅ ∅ ∅ line = Some text) as Hline
    by (vm_compute; reflexivity).
  destruct (Hclaim _ _ _ _ _ _ _ _ Hline) as [H|H];
    vm_compute in H; discriminate H.
Qed.

(** ** The end-to-end scenario *)

(** C5.  With the one rating entry (8.5, 1000), the one crew entry with
    directors [nm01,nm02] and no writers, the names Ada and Bob, and no
    cast and locale entries, the pass over the one title-attributes row
    writes exactly the line of the specification; the builders give
    these very indexes from the rows of the scenario, and the whole run
    gives the same line. *)
Theorem C5_end_to_end_scenario :
  PyNum.float_of_str "8.5" = Some rating_8_5
  /\ load_ratings (ratings_gz scenario) = Ok (Outcome foo_ratings false)
  /\ load_crew (crew_gz scenario) = Ok (Outcome foo_crew false)
  /\ load_names (names_gz scenario) = Ok (Outcome foo_names false)
  /\ load_principals (principals_gz scenario) foo_names
     = Ok (Outcome ∅ false)
  /\ load_languages_and_countries (akas_gz scenario)
     = Ok (Outcome (∅, ∅) false)
  /\ process_basics foo_ratings foo_crew ∅ foo_names ∅ ∅
       (basics_gz scenario)
     = Ok (Outcome [foo_text] false)
  /\ run scenario = Ok [foo_text].
Proof. vm_compute. repeat split. Qed.

(** ** RatingsIndex: malformed lines and truncated streams *)

Lemma ratings_line_entry (ratings : gmap string (PyNum.float * Z))
    (line : string) :
  ratings_line ratings line
  = match rating_entry line with
    | Some (tconst, entry) => <[tconst := entry]> ratings
    | None => ratings
    end.
Proof.
  unfold ratings_line, rating_entry.
  destruct (3 <=? length (fields line))%nat; [|done].
  destruct (PyNum.float_of_str _); [|done].
  by destruct (PyNum.int _).
Qed.

(** The index after a run of lines: the entries of the lines, a later
    entry of a TitleId replacing an earlier one. *)
Lemma ratings_loop (lines : list string)
    (ratings : gmap string (PyNum.float * Z)) :
  fold_left ratings_line lines ratings
  = list_to_map (reverse (omap rating_entry lines)) ∪ ratings.
Proof.
  revert ratings.
  induction lines as [|line lines IH]; intros ratings; simpl.
  - by rewrite (left_id_L ∅ (∪)).
  - rewrite IH, ratings_line_entry.
    destruct (rating_entry line) as [[tconst entry]|]; [|done].
    rewrite reverse_cons, list_to_map_app, <- (assoc_L (∪)).
    f_equal. simpl. by rewrite insert_union_singleton_l, insert_empty.
Qed.

Lemma load_ratings_index (header : string) (lines : list string)
    (e : stream_end) :
  load_ratings (TextStream (header :: lines) e)
  = Ok (Outcome (list_to_map (reverse (omap rating_entry lines)))
                (was_cut e)).
Proof.
  unfold load_ratings. rewrite skip_header_then_each_cons, ratings_loop.
  by rewrite (right_id_L ∅ (∪)).
Qed.

Lemma rated_iff_entry (lines : list string) (tconst : string)
    (entry : PyNum.float * Z) :
  (tconst, entry) ∈ reverse (omap rating_entry lines)
  <-> exists line, line ∈ lines /\ rating_entry line = Some (tconst, entry).
Proof. by rewrite elem_of_reverse, list_elem_of_omap. Qed.

(** C9, as the code has it.  A line of the ratings source with fewer
    than three fields, or whose rating is no number for [float], or
    whose vote count is no number for [int], leaves the index as it was;
    the build over a stream whose header was read always completes,
    also when the stream is cut, and its index then holds exactly the
    entries of the lines handed out before the cut (one per line when
    the TitleIds differ); and whatever the other indexes are, MergeJoin
    writes nothing for a title with no well-formed rating line before
    the cut. *)
Theorem C9_ratings_skip_and_truncation :
  (forall (ratings : gmap string (PyNum.float * Z)) (line : string),
     (length (fields line) < 3)%nat
     \/ PyNum.float_of_str (PyStr.item (fields line) 1) = None
     \/ PyNum.int (PyStr.item (fields line) 2) = None ->
     ratings_line ratings line = ratings)
  /\ (forall (header : string) (lines : list string) (e : stream_end),
      exists index,
        load_ratings (TextStream (header :: lines) e)
        = Ok (Outcome index (was_cut e))
        /\ (forall tconst entry,
              index !! tconst = Some entry ->
              exists line,
                line ∈ lines /\ rating_entry line = Some (tconst, entry))
        /\ (forall tconst,
              is_Some (index !! tconst)
              <-> exists line entry,
                    line ∈ lines
                    /\ rating_entry line = Some (tconst, entry))
        /\ (NoDup (omap rating_entry lines).*1 ->
            size index = length (omap rating_entry lines)
            /\ forall line tconst entry,
                 line ∈ lines ->
                 rating_entry line = Some (tconst, entry) ->
                 index !! tconst = Some entry)
        /\ (forall crew principals names languages countries line,
              (forall l entry,
                 l ∈ lines ->
                 rating_entry l <> Some (PyStr.item (fields line) 0, entry)) ->
              basics_line index crew principals names languages countries
                line = None)).
Proof.
  split.
  - intros ratings line Hbad. rewrite ratings_line_entry.
    unfold rating_entry.
    destruct (3 <=? length (fields line))%nat eqn:Hlen; [|done].
    apply Nat.leb_le in Hlen.
    destruct Hbad as [Hshort|[Hfloat|Hint]]; [lia| |].
    + by rewrite Hfloat.
    + rewrite Hint. by destruct (PyNum.float_of_str _).
  - intros header lines e.
    set (entries := reverse (omap rating_entry lines)).
    assert (forall tconst,
              is_Some ((list_to_map entries : gmap _ _) !! tconst)
              <-> exists line entry,
                    line ∈ lines /\ rating_entry line = Some (tconst, entry))
      as Hdom.
    { intros tconst. split.
      - intros [entry Hentry].
        apply elem_of_list_to_map_2, rated_iff_entry in Hentry
          as (line & Hin & Hline).
        by exists line, entry.
      - intros (line & entry & Hin & Hline).
        apply not_eq_None_Some. intros Hnone.
        apply not_elem_of_list_to_map in Hnone. apply Hnone.
        apply list_elem_of_fmap. exists (tconst, entry). split; [done|].
        apply rated_iff_entry. by exists line. }
    exists (list_to_map entries). split_and!.
    + apply load_ratings_index.
    + intros tconst entry Hentry.
      by apply elem_of_list_to_map_2, rated_iff_entry in Hentry.
    + done.
    + intros Hdup.
      assert (NoDup entries.*1) as Hdup'.
      { unfold entries. by rewrite fmap_reverse, reverse_Permutation. }
      split.
      * rewrite map_size_list_to_map by done.
        unfold entries. by rewrite length_reverse.
      * intros line tconst entry Hin Hline.
        apply elem_of_list_to_map_1; [done|].
        apply rated_iff_entry. by exists line.
    + intros crew principals names languages countries line Hnone.
      destruct (basics_line _ _ _ _ _ _ line) as [text|] eqn:Hline; [|done].
      apply basics_line_Some in Hline
        as (_ & _ & _ & _ & _ & rating & Hrating & _).
      assert (is_Some ((list_to_map entries : gmap _ _)
                         !! PyStr.item (fields line) 0)) as Hsome
        by (by exists rating).
      apply Hdom in Hsome as (l & entry & Hin & Hl).
      by destruct (Hnone l entry Hin).
Qed.

Lemma C9_ratings_skip_and_truncation_witness :
  ratings_line foo_ratings (row ["tt0000002"; "n/a"; "12"]) = foo_ratings
  /\ load_ratings
       (cut_after (row ["tconst"; "averageRating"; "numVotes"])
          [row ["tt0000001"; "8.5"; "1000"]; row ["tt0000002"; "7.1"]])
     = Ok (Outcome foo_ratings true)
  /\ basics_line foo_ratings ∅ ∅ ∅ ∅ ∅
       (row ["tt0000002"; "movie"; "Bar"; "Bar"; "0"; "2001";
             PyStr.SENTINEL; "95"; "Drama"])
     = None.
Proof.
  destruct C9_ratings_skip_and_truncation as [Hskip Hbuild].
  split.
  - apply Hskip. right. left. vm_compute. reflexivity.
  - destruct (Hbuild (row ["tconst"; "averageRating"; "numVotes"])
                [row ["tt0000001"; "8.5"; "1000"]; row ["tt0000002"; "7.1"]]
                Truncated)
      as (index & Hload & _ & _ & _ & Hout).
    assert (index = foo_ratings) as ->.
    { assert (load_ratings
                (TextStream
                   [row ["tconst"; "averageRating"; "numVotes"];
                    row ["tt0000001"; "8.5"; "1000"];
                    row ["tt0000002"; "7.1"]] Truncated)
              = Ok (Outcome foo_ratings true)) as Hrun
        by (vm_compute; reflexivity).
      rewrite Hrun in Hload. by injection Hload. }
    split; [exact Hload|].
    apply Hout. intros l entry Hin.
    apply elem_of_cons in Hin as [->|Hin];
      [vm_compute; discriminate|].
    apply elem_of_cons in Hin as [->|Hin];
      [vm_compute; discriminate|].
    by apply elem_of_nil in Hin.
Defined.

(** C9, as the specification has it, fails for a wrong field count on
    the long side: a line with four fields is not skipped, the index
    takes its first three fields. *)
Lemma C9_wrong_field_count_counterexample :
  ~ (forall (ratings : gmap string (PyNum.float * Z)) (line : string),
       length (fields line) <> 3%nat
       \/ PyNum.float_of_str (PyStr.item (fields line) 1) = None
       \/ PyNum.int (PyStr.item (fields line) 2) = None ->
       ratings_line ratings line = ratings).
Proof.
  intros Hclaim.
  specialize (Hclaim ∅ (row ["tt0000001"; "8.5"; "1000"; "extra"])).
  assert (ratings_line ∅ (row ["tt0000001"; "8.5"; "1000"; "extra"])
          = foo_ratings) as Hrun by (vm_compute; reflexivity).
  rewrite Hrun in Hclaim.
  assert (foo_ratings !! "tt0000001" = Some (rating_8_5, 1000)) as Hentry
    by (vm_compute; reflexivity).
  rewrite Hclaim in Hentry; [|left; vm_compute; discriminate].
  by rewrite lookup_empty in Hentry.
Qed.

(** ** PrincipalsIndex: the first three performers *)

Section PrincipalsFacts.

Variable names : gmap string string.

Lemma principals_line_lookup (principals : gmap string (list string))
    (line tconst : string) :
  principals_line names principals line !! tconst
  = match performer_of names tconst line with
    | Some name =>
        match principals !! tconst with
        | Some cast =>
            if (length cast <? 3)%nat then Some (cast ++ [name])
            else Some cast
        | None => Some [name]
        end
    | None => principals !! tconst
    end.
Proof.
  unfold principals_line, performer_of.
  destruct (4 <=? length (fields line))%nat; [|done]. simpl.
  destruct (String.eqb_spec (PyStr.item (fields line) 0) tconst)
    as [->|Hother]; simpl.
  - destruct (is_performer _); [|done].
    unfold has_key.
    destruct (principals !! tconst) as [cast|] eqn:Hcast.
    + rewrite Hcast. simpl.
      destruct (length cast <? 3)%nat; [|done].
      by rewrite lookup_insert_eq.
    + rewrite lookup_insert_eq. simpl. by rewrite lookup_insert_eq.
  - destruct (is_performer _); [|done].
    destruct (has_key _ principals);
      destruct (length _ <? 3)%nat;
      by rewrite ?lookup_insert_ne by done.
Qed.

Lemma principals_loop (lines : list string)
    (principals : gmap string (list string)) (tconst : string) :
  fold_left (principals_line names) lines principals !! tconst
  = match principals !! tconst with
    | Some cast =>
        Some (cast ++ take (3 - length cast) (performers names tconst lines))
    | None =>
        match performers names tconst lines with
        | [] => None
        | cast => Some (take 3 cast)
        end
    end.
Proof.
  revert principals.
  induction lines as [|line lines IH]; intros principals; simpl.
  - destruct (principals !! tconst) as [cast|]; [|done].
    by rewrite take_nil, app_nil_r.
  - rewrite IH, principals_line_lookup. unfold performers. simpl.
    fold (performers names tconst lines).
    destruct (performer_of names tconst line) as [name|]; [|done].
    destruct (principals !! tconst) as [cast|]; [|done].
    destruct (length cast <? 3)%nat eqn:Hlen.
    + apply Nat.ltb_lt in Hlen.
      rewrite length_app. simpl.
      replace (3 - length cast)%nat with (S (3 - (length cast + 1)))%nat
        by lia.
      simpl. by rewrite <- app_assoc.
    + apply Nat.ltb_ge in Hlen.
      by replace (3 - length cast)%nat with 0%nat by lia.
Qed.

Lemma principals_lists_lookup (header : string) (lines : list string)
    (e : stream_end) (tconst : string) :
  exists lists,
    principals_lists names (TextStream (header :: lines) e)
    = Ok (Outcome lists (was_cut e))
    /\ lists !! tconst
       = match performers names tconst lines with
         | [] => None
         | cast => Some (take 3 cast)
         end.
Proof.
  eexists. split; [apply skip_header_then_each_cons|].
  by rewrite principals_loop, lookup_empty.
Qed.

End PrincipalsFacts.

(** C7.  For every TitleId the cast list of PrincipalsIndex is the list
    of the first three (or fewer, when there are fewer) performers of
    the title in source order: the lines about the title whose category
    is [actor] or [actress], each resolved through NameIndex, with
    ["Unknown"] on a miss; the lines of another category add nothing
    and displace nothing; the index itself holds the list joined with a
    comma and a blank.  For the rows A (actor), B (director),
    C (actress), D (actor), E (actress) the cast is A, C, D. *)
Theorem C7_cast_is_first_three_performers :
  (forall (names : gmap string string) (header : string)
          (lines : list string) (e : stream_end) (tconst : string),
     exists lists index,
       principals_lists names (TextStream (header :: lines) e)
       = Ok (Outcome lists (was_cut e))
       /\ load_principals (TextStream (header :: lines) e) names
          = Ok (Outcome index (was_cut e))
       /\ lists !! tconst
          = match performers names tconst lines with
            | [] => None
            | cast => Some (take 3 cast)
            end
       /\ index !! tconst = PyStr.join ", " <$> lists !! tconst)
  /\ performers cast_names "tt0000001" cast_rows = ["A"; "C"; "D"; "E"]
  /\ principals_lists cast_names (whole principals_header cast_rows)
     = Ok (Outcome {[ "tt0000001" := ["A"; "C"; "D"] ]} false)
  /\ load_principals (whole principals_header cast_rows) cast_names
     = Ok (Outcome {[ "tt0000001" := "A, C, D" ]} false)
  /\ performer_of ∅ "tt0000001"
       (row ["tt0000001"; "1"; "nm0A"; "actress"])
     = Some "Unknown".
Proof.
  split; [|vm_compute; repeat split].
  intros names header lines e tconst.
  destruct (principals_lists_lookup names header lines e tconst)
    as (lists & Hlists & Hcast).
  exists lists, (PyStr.join ", " <$> lists). split_and!; [done| |done|].
  - unfold load_principals. by rewrite Hlists.
  - by rewrite lookup_fmap.
Qed.

(** ** At most three names in every list *)

Lemma omap_length_le {A B : Type} (f : A -> option B) (l : list A) :
  (length (omap f l) <= length l)%nat.
Proof.
  induction l as [|x l IH]; [done|].
  simpl. destruct (f x); simpl.
  - apply le_n_S, IH.
  - apply Nat.le_le_succ_r, IH.
Qed.

Lemma crew_names_length (names : gmap string string) (ids : string) :
  (length (crew_names names ids) <= 3)%nat.
Proof.
  unfold crew_names. destruct (PyStr.truthy ids); simpl; [|lia].
  etrans; [apply omap_length_le|]. rewrite length_take. lia.
Qed.

(** C8.  The director and writer fields of a written record are the
    joined names of [crew_names] applied to the id lists of CrewIndex,
    and the cast field is the entry of PrincipalsIndex; [crew_names]
    looks up the first three ids of the list, leaves out the ids that
    have no name, and so gives at most three names; and at no point of
    the principals pass does a cast list hold more than three names, so
    every cast of the index is the join of at most three names. *)
Theorem C8_at_most_three_names :
  (forall (crew : gmap string (string * string))
          (principals names languages countries : gmap string string)
          (parts : list string) (rating : PyNum.float * Z),
     let record :=
       record_fields crew principals names languages countries parts rating in
     let ids := default (EmptyString, EmptyString)
                  (crew !! PyStr.item parts 0) in
     PyStr.item record 8 = joined_or_empty (crew_names names ids.1)
     /\ PyStr.item record 9 = joined_or_empty (crew_names names ids.2)
     /\ PyStr.item record 10
        = default EmptyString (principals !! PyStr.item parts 0))
  /\ (forall (names : gmap string string) (ids : string),
        (length (crew_names names ids) <= 3)%nat
        /\ (ids <> EmptyString ->
            crew_names names ids
            = omap (fun nid => names !! nid)
                   (take 3 (PyStr.split PyStr.COMMA ids)))
        /\ (ids = EmptyString -> crew_names names ids = []))
  /\ (forall (names : gmap string string) (lines : list string)
             (tconst : string) (cast : list string),
        fold_left (principals_line names) lines ∅ !! tconst = Some cast ->
        (length cast <= 3)%nat)
  /\ (forall (names : gmap string string) (f : text_stream)
             (o : outcome (gmap string string)) (tconst text : string),
        load_principals f names = Ok o ->
        value o !! tconst = Some text ->
        exists lists cast,
          principals_lists names f = Ok lists
          /\ value lists !! tconst = Some cast
          /\ text = PyStr.join ", " cast
          /\ (length cast <= 3)%nat).
Proof.
  assert (forall (names : gmap string string) (lines : list string)
                 (tconst : string) (cast : list string),
            fold_left (principals_line names) lines ∅ !! tconst = Some cast ->
            (length cast <= 3)%nat) as Hcast.
  { intros names lines tconst cast.
    rewrite principals_loop, lookup_empty.
    destruct (performers names tconst lines) as [|name rest]; [done|].
    intros [= <-]. simpl. rewrite length_take. lia. }
  split_and!.
  - intros crew principals names languages countries parts [avg votes].
    unfold record_fields. simpl.
    by destruct (default _ (crew !! PyStr.item parts 0)) as [ds ws].
  - intros names ids. split_and!.
    + apply crew_names_length.
    + intros Hids. unfold crew_names. by destruct ids.
    + by intros ->.
  - exact Hcast.
  - intros names f o tconst text Hload Htext.
    unfold load_principals in Hload.
    destruct (principals_lists names f) as [lists|] eqn:Hlists; [|done].
    injection Hload as <-. simpl in Htext.
    rewrite lookup_fmap in Htext.
    destruct (value lists !! tconst) as [cast|] eqn:Hlookup; [|done].
    injection Htext as <-.
    exists lists, cast. split_and!; try done.
    unfold principals_lists, skip_header_then_each in Hlists.
    destruct (readline f) as [[line f']|]; [|done].
    injection Hlists as <-. by apply (Hcast names (pending f') tconst).
Qed.

Lemma C8_at_most_three_names_witness :
  crew_names cast_names "nm0A,nm0X,nm0C,nm0D" = ["A"; "C"]
  /\ (length ["A"; "C"; "D"] <= 3)%nat.
Proof.
  destruct C8_at_most_three_names as (_ & Hcrew & Hlists & _).
  split.
  - destruct (Hcrew cast_names "nm0A,nm0X,nm0C,nm0D") as (_ & Hnames & _).
    rewrite Hnames by discriminate. vm_compute. reflexivity.
  - apply (Hlists cast_names (principals_header :: cast_rows) "tt0000001").
    vm_compute. reflexivity.
Defined.

(** ** LocaleResolver: the priority policy *)

Lemma akas_line_prefer (st : locale_state) (line : string) :
  akas_line st line
  = let parts := fields line in
    if (8 <=? length parts)%nat then
      let tconst := PyStr.item parts 0 in
      let is_original := String.eqb (PyStr.item parts 7) "1" in
      let language :=
        prefer "en" tconst (unless_sentinel (PyStr.item parts 4)) is_original
               (languages st) (original_languages st) in
      let country :=
        prefer "US" tconst (unless_sentinel (PyStr.item parts 3)) is_original
               (countries st) (original_countries st) in
      LocaleState language.1 language.2 country.1 country.2
    else st.
Proof.
  unfold akas_line, prefer. cbv zeta.
  destruct (8 <=? length (fields line))%nat; [|done].
  destruct (PyStr.truthy (unless_sentinel (PyStr.item (fields line) 4)));
    destruct (PyStr.truthy (unless_sentinel (PyStr.item (fields line) 3)));
    repeat match goal with
           | |- context [if ?b then _ else _] => destruct b
           end; reflexivity.
Qed.

Section Preference.

Variable canonical : string.
Hypothesis canonical_truthy : PyStr.truthy canonical = true.

Lemma has_key_true {V : Type} (k : string) (d : gmap string V) (v : V) :
  d !! k = Some v -> has_key k d = true.
Proof. unfold has_key. by intros ->. Qed.

Lemma prefer_installs (tconst : string) (is_original : bool)
    (chosen originals : gmap string string) :
  settled canonical tconst (prefer canonical tconst canonical is_original
                    chosen originals).
Proof.
  unfold prefer, settled.
  rewrite canonical_truthy, String.eqb_refl. simpl.
  split; [by rewrite lookup_insert_eq|].
  unfold has_key.
  destruct (originals !! tconst) eqn:Hheld; [|done].
  by rewrite lookup_delete_eq.
Qed.

Lemma prefer_keeps (tconst other code : string) (is_original : bool)
    (chosen originals : gmap string string) :
  settled canonical tconst (chosen, originals) ->
  settled canonical tconst
    (prefer canonical other code is_original chosen originals).
Proof.
  unfold settled. simpl. intros [Hchosen Hheld]. unfold prefer.
  destruct (PyStr.truthy code); [|done].
  destruct (String.eqb_spec code canonical) as [->|Hcode]; simpl.
  - destruct (decide (other = tconst)) as [->|Hne].
    + rewrite lookup_insert_eq. split; [done|].
      destruct (has_key tconst originals); [|done].
      by rewrite lookup_delete_eq.
    + rewrite lookup_insert_ne by done. split; [done|].
      destruct (has_key other originals); [|done].
      by rewrite lookup_delete_ne.
  - destruct (decide (other = tconst)) as [->|Hne].
    + rewrite (has_key_true _ _ _ Hchosen). simpl.
      by rewrite andb_false_r.
    + destruct (is_original && negb (has_key other chosen)); simpl.
      * by rewrite lookup_insert_ne.
      * destruct (negb (has_key other chosen)
                  && negb (has_key other originals)); simpl; [|done].
        by rewrite lookup_insert_ne.
Qed.

End Preference.

Lemma merge_originals_lookup (originals chosen : gmap string string)
    (tconst : string) :
  merge_originals originals chosen !! tconst
  = match chosen !! tconst with
    | Some code => Some code
    | None => originals !! tconst
    end.
Proof.
  unfold merge_originals. revert tconst.
  apply (map_fold_weak_ind
           (fun merged held =>
              forall tconst,
                merged !! tconst
                = match chosen !! tconst with
                  | Some code => Some code
                  | None => held !! tconst
                  end)).
  - intros tconst. rewrite lookup_empty. by destruct (chosen !! tconst).
  - intros key code held merged Hfresh IH tconst.
    unfold has_key.
    pose proof (IH key) as Hkey. rewrite Hfresh in Hkey.
    destruct (decide (key = tconst)) as [->|Hne].
    + rewrite lookup_insert_eq.
      destruct (merged !! tconst) as [code'|] eqn:Hmerged.
      * rewrite Hmerged. by destruct (chosen !! tconst).
      * rewrite lookup_insert_eq. by destruct (chosen !! tconst).
    + rewrite (lookup_insert_ne held) by done.
      destruct (merged !! key); [apply IH|].
      rewrite lookup_insert_ne by done. apply IH.
Qed.

Section CanonicalDominates.

Variable tconst : string.

Ltac open_akas_line line :=
  unfold language_pair, country_pair in *;
  rewrite akas_line_prefer; cbv zeta;
  destruct (8 <=? length (fields line))%nat eqn:Hlen; simpl.

Lemma english_installed (st : locale_state) (line : string) :
  english_row tconst line ->
  settled "en" tconst (language_pair (akas_line st line)).
Proof.
  intros (Hfields & <- & Hen). open_akas_line line.
  - rewrite Hen.
    exact (prefer_installs "en" eq_refl (PyStr.item (fields line) 0)
             (String.eqb (PyStr.item (fields line) 7) "1")
             (languages st) (original_languages st)).
  - apply Nat.leb_gt in Hlen. lia.
Qed.

Lemma english_kept (st : locale_state) (line : string) :
  settled "en" tconst (language_pair st) ->
  settled "en" tconst (language_pair (akas_line st line)).
Proof.
  intros Hst. open_akas_line line; [|done].
  exact (prefer_keeps "en" tconst (PyStr.item (fields line) 0)
           (unless_sentinel (PyStr.item (fields line) 4))
           (String.eqb (PyStr.item (fields line) 7) "1")
           (languages st) (original_languages st) Hst).
Qed.

Lemma us_installed (st : locale_state) (line : string) :
  us_row tconst line ->
  settled "US" tconst (country_pair (akas_line st line)).
Proof.
  intros (Hfields & <- & Hus). open_akas_line line.
  - rewrite Hus.
    exact (prefer_installs "US" eq_refl (PyStr.item (fields line) 0)
             (String.eqb (PyStr.item (fields line) 7) "1")
             (countries st) (original_countries st)).
  - apply Nat.leb_gt in Hlen. lia.
Qed.

Lemma us_kept (st : locale_state) (line : string) :
  settled "US" tconst (country_pair st) ->
  settled "US" tconst (country_pair (akas_line st line)).
Proof.
  intros Hst. open_akas_line line; [|done].
  exact (prefer_keeps "US" tconst (PyStr.item (fields line) 0)
           (unless_sentinel (PyStr.item (fields line) 3))
           (String.eqb (PyStr.item (fields line) 7) "1")
           (countries st) (original_countries st) Hst).
Qed.

Lemma english_kept_loop (lines : list string) (st : locale_state) :
  settled "en" tconst (language_pair st) ->
  settled "en" tconst (language_pair (fold_left akas_line lines st)).
Proof.
  revert st. induction lines as [|line lines IH]; intros st Hst; [done|].
  simpl. by apply IH, english_kept.
Qed.

Lemma us_kept_loop (lines : list string) (st : locale_state) :
  settled "US" tconst (country_pair st) ->
  settled "US" tconst (country_pair (fold_left akas_line lines st)).
Proof.
  revert st. induction lines as [|line lines IH]; intros st Hst; [done|].
  simpl. by apply IH, us_kept.
Qed.

Lemma english_seen (lines : list string) (st : locale_state) (line : string) :
  line ∈ lines -> english_row tconst line ->
  settled "en" tconst (language_pair (fold_left akas_line lines st)).
Proof.
  intros (before & after & ->)%list_elem_of_split Hrow.
  rewrite fold_left_app. simpl.
  by apply english_kept_loop, english_installed.
Qed.

Lemma us_seen (lines : list string) (st : locale_state) (line : string) :
  line ∈ lines -> us_row tconst line ->
  settled "US" tconst (country_pair (fold_left akas_line lines st)).
Proof.
  intros (before & after & ->)%list_elem_of_split Hrow.
  rewrite fold_left_app. simpl.
  by apply us_kept_loop, us_installed.
Qed.

End CanonicalDominates.

Lemma load_languages_and_countries_cons (header : string)
    (lines : list string) (e : stream_end) :
  load_languages_and_countries (TextStream (header :: lines) e)
  = let st := fold_left akas_line lines locale_init in
    Ok (Outcome
          (merge_originals (original_languages st) (languages st),
           merge_originals (original_countries st) (countries st))
          (was_cut e)).
Proof. reflexivity. Qed.

(** C3.  Once a line with language [en] has been handed out for a
    title, the language of the title is [en] at the end of the pass,
    whatever the other lines are and wherever they stand; the same for
    the region [US].  The line installs the canonical value and drops
    the tentative original value of the title, and no later line
    changes either: this holds for [languages] with
    [original_languages], and in the same way for [countries] with
    [original_countries], so that the final merge of the original
    values has nothing to bring back for the title.  The three orders
    of the specification give [en], [en] and [fr]; the same three
    orders on the region give [US], [US] and [FR]. *)
Theorem C3_canonical_value_dominates :
  (forall (header : string) (lines : list string) (e : stream_end)
          (tconst line : string),
     line ∈ lines -> english_row tconst line ->
     exists o,
       load_languages_and_countries (TextStream (header :: lines) e) = Ok o
       /\ (value o).1 !! tconst = Some "en")
  /\ (forall (header : string) (lines : list string) (e : stream_end)
             (tconst line : string),
        line ∈ lines -> us_row tconst line ->
        exists o,
          load_languages_and_countries (TextStream (header :: lines) e)
          = Ok o
          /\ (value o).2 !! tconst = Some "US")
  /\ (forall (st : locale_state) (tconst line : string),
        english_row tconst line ->
        languages (akas_line st line) !! tconst = Some "en"
        /\ original_languages (akas_line st line) !! tconst = None)
  /\ (forall (st : locale_state) (tconst line : string),
        languages st !! tconst = Some "en" ->
        original_languages st !! tconst = None ->
        languages (akas_line st line) !! tconst = Some "en"
        /\ original_languages (akas_line st line) !! tconst = None)
  /\ (resolved [aka PyStr.SENTINEL "fr" "0"; aka PyStr.SENTINEL "en" "0"]
      = Some (Some "en", None)
      /\ resolved [aka PyStr.SENTINEL "en" "0"; aka PyStr.SENTINEL "fr" "1"]
         = Some (Some "en", None)
      /\ resolved [aka PyStr.SENTINEL "fr" "1"; aka PyStr.SENTINEL "de" "0"]
         = Some (Some "fr", None))
  /\ (forall (st : locale_state) (tconst line : string),
        us_row tconst line ->
        countries (akas_line st line) !! tconst = Some "US"
        /\ original_countries (akas_line st line) !! tconst = None)
  /\ (forall (st : locale_state) (tconst line : string),
        countries st !! tconst = Some "US" ->
        original_countries st !! tconst = None ->
        countries (akas_line st line) !! tconst = Some "US"
        /\ original_countries (akas_line st line) !! tconst = None)
  /\ (resolved [aka "FR" PyStr.SENTINEL "0"; aka "US" PyStr.SENTINEL "0"]
      = Some (None, Some "US")
      /\ resolved [aka "US" PyStr.SENTINEL "0"; aka "FR" PyStr.SENTINEL "1"]
         = Some (None, Some "US")
      /\ resolved [aka "FR" PyStr.SENTINEL "1"; aka "DE" PyStr.SENTINEL "0"]
         = Some (None, Some "FR")).
Proof.
  split_and!.
  - intros header lines e tconst line Hin Hrow.
    eexists. split; [apply load_languages_and_countries_cons|].
    cbv zeta. simpl.
    destruct (english_seen tconst lines locale_init line Hin Hrow)
      as [Hen _].
    simpl in Hen. by rewrite merge_originals_lookup, Hen.
  - intros header lines e tconst line Hin Hrow.
    eexists. split; [apply load_languages_and_countries_cons|].
    cbv zeta. simpl.
    destruct (us_seen tconst lines locale_init line Hin Hrow) as [Hus _].
    simpl in Hus. by rewrite merge_originals_lookup, Hus.
  - intros st tconst line Hrow. by apply english_installed.
  - intros st tconst line Hen Hnone. by apply english_kept.
  - vm_compute. reflexivity.
  - vm_compute. reflexivity.
  - vm_compute. reflexivity.
  - intros st tconst line Hrow. by apply us_installed.
  - intros st tconst line Hus Hnone. by apply us_kept.
  - vm_compute. reflexivity.
  - vm_compute. reflexivity.
  - vm_compute. reflexivity.
Qed.

Lemma C3_canonical_value_dominates_witness :
  exists o,
    load_languages_and_countries
      (whole akas_header
         [aka "FR" "fr" "1"; aka "US" "en" "0"; aka "DE" "de" "1"]) = Ok o
    /\ (value o).1 !! "tt0000001" = Some "en".
Proof.
  destruct C3_canonical_value_dominates as (Hlang & _).
  apply (Hlang akas_header
           [aka "FR" "fr" "1"; aka "US" "en" "0"; aka "DE" "de" "1"]
           EndOfFile "tt0000001" (aka "US" "en" "0")).
  - apply elem_of_cons. right. apply elem_of_cons. by left.
  - unfold english_row. vm_compute. repeat split; lia.
Defined.

(** ** Fallback before original *)

(** Once [languages] holds any value for a title, a later line flagged
    as original with another language than [en] changes nothing: the
    test [tconst not in languages] of the second branch does not tell a
    fallback value from a canonical one. *)
Lemma original_after_fallback_ignored (st : locale_state) (line : string) :
  has_key (PyStr.item (fields line) 0) (languages st) = true ->
  unless_sentinel (PyStr.item (fields line) 4) <> "en" ->
  languages (akas_line st line) = languages st
  /\ original_languages (akas_line st line) = original_languages st.
Proof.
  intros Hheld Hcode. rewrite akas_line_prefer. cbv zeta.
  destruct (8 <=? length (fields line))%nat; [|done]. simpl.
  unfold prefer. rewrite Hheld.
  destruct (PyStr.truthy _); [|done].
  apply String.eqb_neq in Hcode. rewrite Hcode.
  by rewrite andb_false_r.
Qed.

(** C1, on the code.  With no [en] and no [US] line for the title, a
    plain line with language [fr] and region [FR] followed by a line
    flagged as original with language [de] and region [DE] resolves to
    [fr] and [FR]: the later original value does not replace the
    fallback value.  In the other order the original value is kept. *)
Theorem C1_fallback_first_blocks_original :
  resolved [aka "FR" "fr" "0"; aka "DE" "de" "1"]
  = Some (Some "fr", Some "FR")
  /\ resolved [aka "DE" "de" "1"; aka "FR" "fr" "0"]
     = Some (Some "de", Some "DE").
Proof. split; vm_compute; reflexivity. Qed.

(** ** The sentinel in NameIndex *)

(** [load_names] stores the second field as it stands. *)
Lemma names_line_stores_field (names : gmap string string) (line : string) :
  (2 <= length (fields line))%nat ->
  names_line names line !! PyStr.item (fields line) 0
  = Some (PyStr.item (fields line) 1).
Proof.
  intros Hlen. unfold names_line.
  apply Nat.leb_le in Hlen. rewrite Hlen. by rewrite lookup_insert_eq.
Qed.

(** [load_crew], for its part, never stores the sentinel as an id list. *)
Lemma crew_line_drops_sentinel (crew : gmap string (string * string))
    (line : string) (directors writers : string) :
  (3 <= length (fields line))%nat ->
  crew_line crew line !! PyStr.item (fields line) 0
  = Some (directors, writers) ->
  directors <> PyStr.SENTINEL /\ writers <> PyStr.SENTINEL.
Proof.
  intros Hlen. unfold crew_line.
  apply Nat.leb_le in Hlen. rewrite Hlen, lookup_insert_eq.
  intros [= <- <-]. unfold unless_sentinel.
  split.
  - destruct (String.eqb_spec (PyStr.item (fields line) 1) PyStr.SENTINEL);
      [discriminate | done].
  - destruct (String.eqb_spec (PyStr.item (fields line) 2) PyStr.SENTINEL);
      [discriminate | done].
Qed.

(** C2, on the code.  A names row whose primaryName is the sentinel puts
    the sentinel itself into NameIndex, and from there into the
    directors and cast fields of the output; CrewIndex turns a sentinel
    id list into the empty string and RatingsIndex skips a line whose
    rating is the sentinel. *)
Theorem C2_names_keep_the_sentinel :
  load_names (names_gz unnamed_person)
  = Ok (Outcome {[ "nm01" := PyStr.SENTINEL ]} false)
  /\ run unnamed_person
     = Ok [row ["tt0000001"; "Foo"; EmptyString; "1999"; "8.5"; "1000";
                "90 mins."; "Drama|Comedy"; PyStr.SENTINEL; EmptyString;
                PyStr.SENTINEL; EmptyString; EmptyString; "0"]]
  /\ load_crew (crew_gz unnamed_person)
     = Ok (Outcome {[ "tt0000001" := ("nm01", EmptyString) ]} false)
  /\ load_ratings
       (whole (row ["tconst"; "averageRating"; "numVotes"])
              [row ["tt0000001"; PyStr.SENTINEL; "1000"]])
     = Ok (Outcome ∅ false).
Proof. split_and!; vm_compute; reflexivity. Qed.

(** * Further properties of the pipeline *)

(** ** LocaleResolver: what the policy resolves to *)

Section KeyEntries.

Variable canonical : string.

Lemma has_key_decide {V : Type} (k : string) (d : gmap string V) :
  has_key k d = bool_decide (is_Some (d !! k)).
Proof.
  unfold has_key. destruct (d !! k) as [v|].
  - symmetry. apply bool_decide_eq_true. by exists v.
  - symmetry. apply bool_decide_eq_false. by intros [v Hv].
Qed.

(** On the entries of its own title, [prefer] is [key_step]. *)
Lemma prefer_own_key (tconst code : string) (is_original : bool)
    (chosen originals : gmap string string) :
  PyStr.truthy code = true ->
  let p := prefer canonical tconst code is_original chosen originals in
  (p.1 !! tconst, p.2 !! tconst)
  = key_step canonical (chosen !! tconst, originals !! tconst)
      (code, is_original).
Proof.
  intros Hcode. unfold prefer, key_step. rewrite Hcode.
  rewrite !has_key_decide.
  destruct (String.eqb code canonical); simpl.
  - rewrite lookup_insert_eq.
    destruct (bool_decide (is_Some (originals !! tconst))) eqn:Hheld.
    + by rewrite lookup_delete_eq.
    + apply bool_decide_eq_false in Hheld.
      f_equal. by apply eq_None_not_Some.
  - destruct (is_original && negb (bool_decide (is_Some (chosen !! tconst))));
      simpl; [by rewrite lookup_insert_eq|].
    destruct (negb (bool_decide (is_Some (chosen !! tconst)))
              && negb (bool_decide (is_Some (originals !! tconst))));
      simpl; [by rewrite lookup_insert_eq | done].
Qed.

(** The entries of the other titles are left alone. *)
Lemma prefer_other_key (tconst other code : string) (is_original : bool)
    (chosen originals : gmap string string) :
  other <> tconst ->
  let p := prefer canonical other code is_original chosen originals in
  p.1 !! tconst = chosen !! tconst /\ p.2 !! tconst = originals !! tconst.
Proof.
  intros Hother. unfold prefer.
  destruct (PyStr.truthy code); [|done].
  destruct (String.eqb code canonical); simpl.
  - rewrite lookup_insert_ne by done. split; [done|].
    destruct (has_key other originals); [|done].
    by rewrite lookup_delete_ne.
  - destruct (is_original && negb (has_key other chosen)); simpl.
    + by rewrite lookup_insert_ne.
    + destruct (negb (has_key other chosen)
                && negb (has_key other originals)); simpl; [|done].
      by rewrite lookup_insert_ne.
Qed.

Lemma prefer_empty_code (tconst : string) (is_original : bool)
    (chosen originals : gmap string string) :
  prefer canonical tconst EmptyString is_original chosen originals
  = (chosen, originals).
Proof. reflexivity. Qed.

Lemma last_original_snoc (rows : list (string * bool)) (code : string)
    (is_original : bool) :
  last_original (rows ++ [(code, is_original)])
  = if is_original then Some code else last_original rows.
Proof.
  unfold last_original. rewrite List.filter_app, map_app. simpl.
  destruct is_original; simpl.
  - apply last_snoc.
  - by rewrite app_nil_r.
Qed.

Lemma last_original_head (rows : list (string * bool)) (code : string) :
  is_Some (last_original ((code, true) :: rows)).
Proof.
  unfold last_original. simpl.
  destruct (map fst (List.filter snd rows)) as [|c l] eqn:Hl using rev_ind.
  - by exists code.
  - rewrite app_comm_cons, last_snoc. by eexists.
Qed.

Lemma entry_after_snoc (rows : list (string * bool)) (r : string * bool) :
  entry_after canonical (rows ++ [r])
  = key_step canonical (entry_after canonical rows) r.
Proof.
  destruct r as [code is_original].
  unfold entry_after. rewrite existsb_app. simpl. rewrite orb_false_r.
  destruct (existsb _ rows) eqn:Hseen; simpl.
  - destruct (String.eqb code canonical); [done|].
    by rewrite andb_false_r.
  - destruct rows as [|[c0 [|]] rows]; simpl;
      destruct (String.eqb code canonical) eqn:Hcode; try done.
    + by destruct is_original.
    + rewrite app_comm_cons, last_original_snoc.
      destruct is_original; simpl; [done|].
      by rewrite bool_decide_eq_true_2 by apply last_original_head.
    + by rewrite andb_false_r.
Qed.

Lemma entry_after_fold (rows : list (string * bool)) :
  fold_left (key_step canonical) rows (None, None)
  = entry_after canonical rows.
Proof.
  induction rows as [|r rows IH] using rev_ind; [done|].
  by rewrite fold_left_app, IH, entry_after_snoc.
Qed.

(** At the end of the pass the chosen value is read first, then the
    original one: that is [resolve]. *)
Lemma resolve_entry_after (rows : list (string * bool)) :
  resolve canonical rows
  = match (entry_after canonical rows).1 with
    | Some code => Some code
    | None => (entry_after canonical rows).2
    end.
Proof.
  unfold resolve, entry_after.
  destruct (existsb _ rows); [done|].
  by destruct rows as [|[c0 [|]] rows].
Qed.

End KeyEntries.

Section ResolvedCodes.

Variable tconst : string.

Lemma prefer_falsy (canonical other code : string) (is_original : bool)
    (chosen originals : gmap string string) :
  PyStr.truthy code = false ->
  prefer canonical other code is_original chosen originals
  = (chosen, originals).
Proof. intros Hcode. unfold prefer. by rewrite Hcode. Qed.

Lemma akas_line_language_entry (st : locale_state) (line : string) :
  (languages (akas_line st line) !! tconst,
   original_languages (akas_line st line) !! tconst)
  = match locale_row 4 tconst line with
    | Some r =>
        key_step "en"
          (languages st !! tconst, original_languages st !! tconst) r
    | None => (languages st !! tconst, original_languages st !! tconst)
    end.
Proof.
  rewrite akas_line_prefer. cbv zeta. unfold locale_row.
  destruct (8 <=? length (fields line))%nat; [|done]. simpl.
  destruct (String.eqb_spec (PyStr.item (fields line) 0) tconst)
    as [->|Hother]; simpl.
  - destruct (PyStr.truthy (unless_sentinel (PyStr.item (fields line) 4)))
      eqn:Hcode.
    + by apply prefer_own_key.
    + by rewrite prefer_falsy.
  - by destruct (prefer_other_key "en" tconst (PyStr.item (fields line) 0)
                   (unless_sentinel (PyStr.item (fields line) 4))
                   (String.eqb (PyStr.item (fields line) 7) "1")
                   (languages st) (original_languages st) Hother)
      as [-> ->].
Qed.

Lemma akas_line_country_entry (st : locale_state) (line : string) :
  (countries (akas_line st line) !! tconst,
   original_countries (akas_line st line) !! tconst)
  = match locale_row 3 tconst line with
    | Some r =>
        key_step "US"
          (countries st !! tconst, original_countries st !! tconst) r
    | None => (countries st !! tconst, original_countries st !! tconst)
    end.
Proof.
  rewrite akas_line_prefer. cbv zeta. unfold locale_row.
  destruct (8 <=? length (fields line))%nat; [|done]. simpl.
  destruct (String.eqb_spec (PyStr.item (fields line) 0) tconst)
    as [->|Hother]; simpl.
  - destruct (PyStr.truthy (unless_sentinel (PyStr.item (fields line) 3)))
      eqn:Hcode.
    + by apply prefer_own_key.
    + by rewrite prefer_falsy.
  - by destruct (prefer_other_key "US" tconst (PyStr.item (fields line) 0)
                   (unless_sentinel (PyStr.item (fields line) 3))
                   (String.eqb (PyStr.item (fields line) 7) "1")
                   (countries st) (original_countries st) Hother)
      as [-> ->].
Qed.

Lemma akas_loop_language_entry (lines : list string) (st : locale_state) :
  let st' := fold_left akas_line lines st in
  (languages st' !! tconst, original_languages st' !! tconst)
  = fold_left (key_step "en") (locale_rows 4 tconst lines)
      (languages st !! tconst, original_languages st !! tconst).
Proof.
  revert st. induction lines as [|line lines IH]; intros st; [done|].
  simpl. rewrite IH, akas_line_language_entry.
  unfold locale_rows. simpl.
  by destruct (locale_row 4 tconst line).
Qed.

Lemma akas_loop_country_entry (lines : list string) (st : locale_state) :
  let st' := fold_left akas_line lines st in
  (countries st' !! tconst, original_countries st' !! tconst)
  = fold_left (key_step "US") (locale_rows 3 tconst lines)
      (countries st !! tconst, original_countries st !! tconst).
Proof.
  revert st. induction lines as [|line lines IH]; intros st; [done|].
  simpl. rewrite IH, akas_line_country_entry.
  unfold locale_rows. simpl.
  by destruct (locale_row 3 tconst line).
Qed.

End ResolvedCodes.

(** The two resolved codes of a title, for a stream with a header. *)
Lemma locale_resolution (header : string) (lines : list string)
    (e : stream_end) (tconst : string) :
  exists o,
    load_languages_and_countries (TextStream (header :: lines) e) = Ok o
    /\ truncated o = was_cut e
    /\ (value o).1 !! tconst = resolve "en" (locale_rows 4 tconst lines)
    /\ (value o).2 !! tconst = resolve "US" (locale_rows 3 tconst lines).
Proof.
  eexists. split; [apply load_languages_and_countries_cons|].
  cbv zeta. simpl. split; [done|].
  rewrite !merge_originals_lookup, !resolve_entry_after.
  pose proof (akas_loop_language_entry tconst lines locale_init) as Hl.
  pose proof (akas_loop_country_entry tconst lines locale_init) as Hc.
  cbv zeta in Hl, Hc. simpl in Hl, Hc.
  rewrite !lookup_empty, entry_after_fold in Hl, Hc.
  rewrite <- Hl, <- Hc. done.
Qed.

(** X1.  For every stream whose header was read and every title, the
    language that LocaleResolver gives is decided by the rows of the
    title that carry a language, in source order: [en] if one of them
    has it; otherwise, if the first of them is flagged as original, the
    language of the last row flagged as original; otherwise the
    language of that first row; and no language when there is no such
    row.  The country follows the same rule with [US] and the region
    column. *)
Theorem X1_locale_resolution (header : string) (lines : list string)
    (e : stream_end) (tconst : string) :
  exists o,
    load_languages_and_countries (TextStream (header :: lines) e) = Ok o
    /\ truncated o = was_cut e
    /\ (value o).1 !! tconst = resolve "en" (locale_rows 4 tconst lines)
    /\ (value o).2 !! tconst = resolve "US" (locale_rows 3 tconst lines).
Proof. apply locale_resolution. Qed.

(** ** The plain index builders: which line decides an entry *)

Section StoreLoop.

Context {V : Type}.
Variable entry : string -> option (string * V).

Lemma store_silent (key : string) (lines : list string)
    (index : gmap string V) :
  silent_on entry key lines ->
  fold_left (store entry) lines index !! key = index !! key.
Proof.
  revert index. induction lines as [|line lines IH]; intros index Hquiet;
    [done|].
  simpl. rewrite IH.
  - unfold store.
    destruct (entry line) as [[k v]|] eqn:Hline; [|done].
    apply lookup_insert_ne. intros ->.
    apply (Hquiet line v); [apply elem_of_cons; by left | done].
  - intros l v Hin. apply Hquiet. apply elem_of_cons. by right.
Qed.

(** The last line that carries an entry for a key decides it. *)
Lemma store_last_wins (key : string) (v : V)
    (before after : list string) (line : string) (index : gmap string V) :
  entry line = Some (key, v) ->
  silent_on entry key after ->
  fold_left (store entry) (before ++ line :: after) index !! key = Some v.
Proof.
  intros Hline Hquiet. rewrite fold_left_app. simpl.
  rewrite store_silent by done.
  unfold store at 1. rewrite Hline. apply lookup_insert_eq.
Qed.

(** A key is in the index only if some line carries an entry for it. *)
Lemma store_only_entries (key : string) (v : V) (lines : list string) :
  fold_left (store entry) lines ∅ !! key = Some v ->
  exists line, line ∈ lines /\ entry line = Some (key, v).
Proof.
  induction lines as [|line lines IH] using rev_ind.
  - simpl. by rewrite lookup_empty.
  - rewrite fold_left_app. simpl. unfold store at 1.
    destruct (entry line) as [[k w]|] eqn:Hline.
    + destruct (decide (k = key)) as [->|Hne].
      * rewrite lookup_insert_eq. intros [= ->].
        exists line. split; [|done].
        apply elem_of_app. right. apply elem_of_cons. by left.
      * rewrite lookup_insert_ne by done. intros Hkey.
        destruct (IH Hkey) as (l & Hin & Hl).
        exists l. split; [|done]. apply elem_of_app. by left.
    + intros Hkey. destruct (IH Hkey) as (l & Hin & Hl).
      exists l. split; [|done]. apply elem_of_app. by left.
Qed.

End StoreLoop.

(** What a stage that completes has done: its loop over the lines after
    the header. *)
Lemma skip_header_then_each_Ok {S : Type} (body : S -> string -> S)
    (init : S) (f : text_stream) (o : outcome S) :
  skip_header_then_each body init f = Ok o ->
  value o = fold_left body (drop 1 (pending f)) init
  /\ truncated o = was_cut (ending f).
Proof.
  unfold skip_header_then_each, readline.
  destruct f as [[|header lines] e]; simpl.
  - destruct e; [|done]. by intros [= <-].
  - by intros [= <-].
Qed.

Lemma fold_left_pointwise {S : Type} (f g : S -> string -> S)
    (lines : list string) (init : S) :
  (forall s line, f s line = g s line) ->
  fold_left f lines init = fold_left g lines init.
Proof.
  intros Hfg. revert init.
  induction lines as [|line lines IH]; intros init; [done|].
  simpl. by rewrite Hfg, IH.
Qed.

Lemma ratings_loop_store (lines : list string)
    (index : gmap string (PyNum.float * Z)) :
  fold_left ratings_line lines index
  = fold_left (store rating_entry) lines index.
Proof. apply fold_left_pointwise, ratings_line_entry. Qed.

Lemma names_loop_store (lines : list string) (index : gmap string string) :
  fold_left names_line lines index
  = fold_left (store name_entry) lines index.
Proof.
  apply fold_left_pointwise. intros names line.
  unfold names_line, store, name_entry.
  by destruct (2 <=? length (fields line))%nat.
Qed.

Lemma crew_loop_store (lines : list string)
    (index : gmap string (string * string)) :
  fold_left crew_line lines index
  = fold_left (store crew_entry) lines index.
Proof.
  apply fold_left_pointwise. intros crew line.
  unfold crew_line, store, crew_entry.
  by destruct (3 <=? length (fields line))%nat.
Qed.

(** X2.  In RatingsIndex the last well-formed line of a TitleId decides
    its entry: the lines after it that are about other titles, or that
    are malformed, leave the entry as it is, whatever stands before. *)
Theorem X2_ratings_last_valid_line_wins (header : string)
    (before after : list string) (line : string) (e : stream_end)
    (tconst : string) (entry : PyNum.float * Z) :
  rating_entry line = Some (tconst, entry) ->
  silent_on rating_entry tconst after ->
  exists o,
    load_ratings (TextStream (header :: before ++ line :: after) e) = Ok o
    /\ value o !! tconst = Some entry.
Proof.
  intros Hline Hquiet. eexists. split; [reflexivity|]. simpl.
  rewrite ratings_loop_store. by apply store_last_wins.
Qed.

Lemma X2_ratings_last_valid_line_wins_witness :
  exists o,
    load_ratings
      (whole (row ["tconst"; "averageRating"; "numVotes"])
         [row ["tt0000001"; "7.0"; "10"];
          row ["tt0000001"; "8.5"; "1000"];
          row ["tt0000001"; "9.9"; "many"];
          row ["tt0000002"; "3.0"; "5"]])
    = Ok o
    /\ value o !! "tt0000001" = Some (rating_8_5, 1000).
Proof.
  apply (X2_ratings_last_valid_line_wins
           (row ["tconst"; "averageRating"; "numVotes"])
           [row ["tt0000001"; "7.0"; "10"]]
           [row ["tt0000001"; "9.9"; "many"]; row ["tt0000002"; "3.0"; "5"]]
           (row ["tt0000001"; "8.5"; "1000"]) EndOfFile).
  - vm_compute. reflexivity.
  - intros l v Hin.
    apply elem_of_cons in Hin as [->|Hin]; [vm_compute; discriminate|].
    apply elem_of_cons in Hin as [->|Hin]; [vm_compute; discriminate|].
    by apply elem_of_nil in Hin.
Defined.

(** X3.  NameIndex holds, for a PersonId, the second field of the last
    line with at least two fields whose first field is that PersonId, as
    it stands in the source; and it holds nothing but such fields. *)
Theorem X3_names_last_line_wins :
  (forall (header : string) (before after : list string) (line : string)
          (e : stream_end),
     (2 <= length (fields line))%nat ->
     silent_on name_entry (PyStr.item (fields line) 0) after ->
     exists o,
       load_names (TextStream (header :: before ++ line :: after) e) = Ok o
       /\ value o !! PyStr.item (fields line) 0
          = Some (PyStr.item (fields line) 1))
  /\ (forall (f : text_stream) (o : outcome (gmap string string))
             (nconst name : string),
        load_names f = Ok o ->
        value o !! nconst = Some name ->
        exists line,
          line ∈ drop 1 (pending f)
          /\ (2 <= length (fields line))%nat
          /\ PyStr.item (fields line) 0 = nconst
          /\ PyStr.item (fields line) 1 = name).
Proof.
  split.
  - intros header before after line e Hlen Hquiet.
    eexists. split; [reflexivity|]. simpl.
    rewrite names_loop_store. apply store_last_wins; [|done].
    unfold name_entry. apply Nat.leb_le in Hlen. by rewrite Hlen.
  - intros f o nconst name Hload Hname.
    apply skip_header_then_each_Ok in Hload as [Hvalue _].
    rewrite Hvalue, names_loop_store in Hname.
    apply store_only_entries in Hname as (line & Hin & Hline).
    exists line. unfold name_entry in Hline.
    destruct (2 <=? length (fields line))%nat eqn:Hlen; [|done].
    apply Nat.leb_le in Hlen. by injection Hline as <- <-.
Qed.

Lemma X3_names_last_line_wins_witness :
  exists o,
    load_names
      (whole (row ["nconst"; "primaryName"])
         [row ["nm01"; "Ada"]; row ["nm01"; "Ada L."]; row ["nm02"; "Bob"]])
    = Ok o
    /\ value o !! "nm01" = Some "Ada L.".
Proof.
  destruct X3_names_last_line_wins as [Hlast _].
  apply (Hlast (row ["nconst"; "primaryName"])
           [row ["nm01"; "Ada"]] [row ["nm02"; "Bob"]]
           (row ["nm01"; "Ada L."]) EndOfFile).
  - vm_compute. lia.
  - intros l v Hin.
    apply elem_of_cons in Hin as [->|Hin]; [vm_compute; discriminate|].
    by apply elem_of_nil in Hin.
Defined.

(** X4.  CrewIndex holds, for a TitleId, the two id lists of the last
    line with at least three fields about it, each sentinel read as the
    empty string; no entry of the index holds the sentinel as an id
    list, and every entry comes from a line after the header. *)
Theorem X4_crew_last_line_wins_without_sentinel :
  (forall (header : string) (before after : list string) (line : string)
          (e : stream_end),
     (3 <= length (fields line))%nat ->
     silent_on crew_entry (PyStr.item (fields line) 0) after ->
     exists o,
       load_crew (TextStream (header :: before ++ line :: after) e) = Ok o
       /\ value o !! PyStr.item (fields line) 0
          = Some (unless_sentinel (PyStr.item (fields line) 1),
                  unless_sentinel (PyStr.item (fields line) 2)))
  /\ (forall (f : text_stream) (o : outcome (gmap string (string * string)))
             (tconst directors writers : string),
        load_crew f = Ok o ->
        value o !! tconst = Some (directors, writers) ->
        directors <> PyStr.SENTINEL
        /\ writers <> PyStr.SENTINEL
        /\ exists line,
             line ∈ drop 1 (pending f)
             /\ crew_entry line = Some (tconst, (directors, writers))).
Proof.
  split.
  - intros header before after line e Hlen Hquiet.
    eexists. split; [reflexivity|]. simpl.
    rewrite crew_loop_store. apply store_last_wins; [|done].
    unfold crew_entry. apply Nat.leb_le in Hlen. by rewrite Hlen.
  - intros f o tconst directors writers Hload Hentry.
    apply skip_header_then_each_Ok in Hload as [Hvalue _].
    rewrite Hvalue, crew_loop_store in Hentry.
    apply store_only_entries in Hentry as (line & Hin & Hline).
    assert (forall x, unless_sentinel x <> PyStr.SENTINEL) as Hclean.
    { intros x. unfold unless_sentinel.
      destruct (String.eqb_spec x PyStr.SENTINEL); [discriminate | done]. }
    split_and!; [| |by exists line];
      unfold crew_entry in Hline;
      destruct (3 <=? length (fields line))%nat; try done;
      injection Hline as _ <- <-; apply Hclean.
Qed.

Lemma X4_crew_last_line_wins_without_sentinel_witness :
  exists o,
    load_crew
      (whole (row ["tconst"; "directors"; "writers"])
         [row ["tt0000001"; "nm01"; "nm02"];
          row ["tt0000001"; PyStr.SENTINEL; "nm03,nm04"]])
    = Ok o
    /\ value o !! "tt0000001" = Some (EmptyString, "nm03,nm04").
Proof.
  destruct X4_crew_last_line_wins_without_sentinel as [Hlast _].
  apply (Hlast (row ["tconst"; "directors"; "writers"])
           [row ["tt0000001"; "nm01"; "nm02"]] []
           (row ["tt0000001"; PyStr.SENTINEL; "nm03,nm04"]) EndOfFile).
  - vm_compute. lia.
  - intros l v Hin. by apply elem_of_nil in Hin.
Defined.

(** ** LocaleResolver: where a resolved code comes from *)

Lemma resolve_source (canonical : string) (rows : list (string * bool))
    (code : string) :
  resolve canonical rows = Some code ->
  code = canonical \/ exists is_original, In (code, is_original) rows.
Proof.
  unfold resolve. destruct (existsb _ rows); [intros [= <-]; by left|].
  destruct rows as [|[c0 [|]] rows]; [done| |].
  - unfold last_original. intros Hlast. right.
    apply last_Some_elem_of, list_elem_of_In, in_map_iff in Hlast
      as ([c b] & <- & Hin).
    apply filter_In in Hin as [Hin _]. by exists b.
  - intros [= <-]. right. exists false. by left.
Qed.

Lemma locale_rows_source (column : nat) (tconst : string)
    (lines : list string) (code : string) (is_original : bool) :
  In (code, is_original) (locale_rows column tconst lines) ->
  exists line,
    line ∈ lines
    /\ (8 <= length (fields line))%nat
    /\ PyStr.item (fields line) 0 = tconst
    /\ PyStr.item (fields line) column = code
    /\ code <> EmptyString
    /\ code <> PyStr.SENTINEL.
Proof.
  intros Hin. apply list_elem_of_In, list_elem_of_omap in Hin
    as (line & Hline & Hrow).
  exists line. split; [done|].
  unfold locale_row in Hrow.
  destruct (8 <=? length (fields line))%nat eqn:Hlen; [|done].
  destruct (String.eqb_spec (PyStr.item (fields line) 0) tconst); [|done].
  simpl in Hrow. unfold unless_sentinel in Hrow.
  destruct (String.eqb_spec (PyStr.item (fields line) column)
              PyStr.SENTINEL) as [Heq|Hne]; [done|].
  destruct (PyStr.truthy (PyStr.item (fields line) column)) eqn:Htruthy;
    [|done].
  injection Hrow as <- _. apply Nat.leb_le in Hlen.
  split_and!; try done.
  intros Hempty. by rewrite Hempty in Htruthy.
Qed.

Lemma load_languages_and_countries_Ok (f : text_stream)
    (o : outcome (gmap string string * gmap string string))
    (tconst : string) :
  load_languages_and_countries f = Ok o ->
  (value o).1 !! tconst
  = resolve "en" (locale_rows 4 tconst (drop 1 (pending f)))
  /\ (value o).2 !! tconst
     = resolve "US" (locale_rows 3 tconst (drop 1 (pending f))).
Proof.
  destruct f as [[|header lines] e].
  - destruct e; [|done]. intros [= <-]. simpl.
    by rewrite !merge_originals_lookup, !lookup_empty.
  - intros Hload.
    destruct (locale_resolution header lines e tconst)
      as (o' & Hload' & _ & Hlang & Hcountry).
    rewrite Hload in Hload'. by injection Hload' as <-.
Qed.

(** X5.  A code that LocaleResolver gives for a title is never empty and
    never the sentinel: it is [en] (or [US]), or it is the language (or
    region) field, as it stands, of a line after the header that has at
    least eight fields and is about that title. *)
Theorem X5_resolved_codes_come_from_rows (f : text_stream)
    (o : outcome (gmap string string * gmap string string))
    (tconst code : string) :
  load_languages_and_countries f = Ok o ->
  ((value o).1 !! tconst = Some code ->
   code <> EmptyString /\ code <> PyStr.SENTINEL
   /\ (code = "en"
       \/ exists line,
            line ∈ drop 1 (pending f)
            /\ (8 <= length (fields line))%nat
            /\ PyStr.item (fields line) 0 = tconst
            /\ PyStr.item (fields line) 4 = code))
  /\ ((value o).2 !! tconst = Some code ->
      code <> EmptyString /\ code <> PyStr.SENTINEL
      /\ (code = "US"
          \/ exists line,
               line ∈ drop 1 (pending f)
               /\ (8 <= length (fields line))%nat
               /\ PyStr.item (fields line) 0 = tconst
               /\ PyStr.item (fields line) 3 = code)).
Proof.
  intros Hload.
  destruct (load_languages_and_countries_Ok f o tconst Hload)
    as [Hlang Hcountry].
  split.
  - rewrite Hlang. intros [->|[b Hin]]%resolve_source.
    + split_and!; [done|done|by left].
    + apply locale_rows_source in Hin
        as (line & Hin & Hlen & Hid & Hcode & Hne & Hns).
      split_and!; [done|done|]. right. by exists line.
  - rewrite Hcountry. intros [->|[b Hin]]%resolve_source.
    + split_and!; [done|done|by left].
    + apply locale_rows_source in Hin
        as (line & Hin & Hlen & Hid & Hcode & Hne & Hns).
      split_and!; [done|done|]. right. by exists line.
Qed.

Lemma X5_resolved_codes_come_from_rows_witness :
  "fr" <> EmptyString /\ "fr" <> PyStr.SENTINEL.
Proof.
  assert (load_languages_and_countries
            (whole akas_header [aka "FR" "fr" "1"])
          = Ok (Outcome ({[ "tt0000001" := "fr" ]}, {[ "tt0000001" := "FR" ]})
                        false)) as Hload
    by (vm_compute; reflexivity).
  destruct (X5_resolved_codes_come_from_rows _ _ "tt0000001" "fr" Hload)
    as [Hlang _].
  destruct (Hlang eq_refl) as (Hne & Hns & _).
  by split.
Defined.

(** ** What a cut leaves *)

(** X7.  What MergeJoin writes from a title-attributes archive that is
    cut is the beginning of what it writes from any archive that goes
    on after the cut: the lines already written stay as they are. *)
Theorem X7_cut_output_is_a_prefix
    (ratings : gmap string (PyNum.float * Z))
    (crew : gmap string (string * string))
    (principals names languages countries : gmap string string)
    (header : string) (lines further : list string) (e : stream_end) :
  exists partial complete,
    process_basics ratings crew principals names languages countries
      (cut_after header lines) = Ok (Outcome partial true)
    /\ process_basics ratings crew principals names languages countries
         (TextStream (header :: lines ++ further) e)
       = Ok (Outcome complete (was_cut e))
    /\ partial `prefix_of` complete.
Proof.
  eexists _, _. split_and!.
  - apply process_basics_written.
  - apply process_basics_written.
  - rewrite omap_app. by apply prefix_app_r.
Qed.

(** The loop body of MergeJoin in terms of [passes]. *)
Lemma basics_line_passes
    (ratings : gmap string (PyNum.float * Z))
    (crew : gmap string (string * string))
    (principals names languages countries : gmap string string)
    (line : string) :
  basics_line ratings crew principals names languages countries line
  = if passes ratings (fields line) then
      rating ← ratings !! PyStr.item (fields line) 0;
      Some (PyStr.join TABS
              (record_fields crew principals names languages countries
                 (fields line) rating) +:+ NEWLINE)
    else None.
Proof.
  unfold basics_line, passes, has_key.
  rewrite Nat.ltb_antisym.
  destruct (9 <=? length (fields line))%nat; [|done]. simpl.
  destruct (String.eqb (PyStr.item (fields line) 1) "movie"); [|done].
  simpl.
  destruct (ratings !! PyStr.item (fields line) 0) as [rating|]; [|done].
  simpl.
  destruct (String.eqb (PyStr.item (fields line) 5) PyStr.SENTINEL);
    [done|].
  destruct (String.eqb (PyStr.item (fields line) 7) PyStr.SENTINEL);
    [done|].
  by destruct (String.eqb (PyStr.item (fields line) 8) PyStr.SENTINEL).
Qed.

(** ** The layout of a written line *)

Section CharFacts.

Variable c : ascii.

Lemma has_char_append (a b : string) :
  has_char c (a +:+ b) = has_char c a || has_char c b.
Proof.
  induction a as [|x a IH]; [done|].
  rewrite append_cons. simpl. by rewrite IH, orb_assoc.
Qed.

Lemma split_without (s : string) :
  has_char c s = false -> PyStr.split c s = [s].
Proof.
  induction s as [|x s IH]; [done|]. simpl.
  intros [Hx Hs]%orb_false_elim. rewrite Hx, IH; done.
Qed.

Lemma split_fields_without (s x : string) :
  In x (PyStr.split c s) -> has_char c x = false.
Proof.
  revert x. induction s as [|y s IH]; intros x; simpl.
  - by intros [<-|[]].
  - destruct (Ascii.eqb y c) eqn:Hy.
    + intros [<-|Hin]; [done | by apply IH].
    + pose proof (split_not_nil c s) as Hne.
      destruct (PyStr.split c s) as [|z zs] eqn:Hs; [done|].
      intros [<-|Hin].
      * simpl. rewrite Hy. apply IH. by left.
      * apply IH. by right.
Qed.

Lemma has_char_join (sep : string) (l : list string) :
  has_char c sep = false ->
  Forall (fun x => has_char c x = false) l ->
  has_char c (PyStr.join sep l) = false.
Proof.
  intros Hsep Hl. induction Hl as [|x l Hx Hl IH]; [done|].
  destruct l as [|y l]; [done|].
  rewrite join_first, !has_char_append, Hx, Hsep. by apply IH.
Qed.

Lemma has_char_replace (a b : ascii) (s : string) :
  Ascii.eqb b c = false ->
  has_char c s = false ->
  has_char c (PyStr.replace a b s) = false.
Proof.
  intros Hb. induction s as [|x s IH]; [done|]. simpl.
  intros [Hx Hs]%orb_false_elim. rewrite (IH Hs), orb_false_r.
  by destruct (Ascii.eqb x a).
Qed.

End CharFacts.

Lemma flat_map_split_without (c : ascii) (l : list string) :
  Forall (fun x => has_char c x = false) l ->
  flat_map (PyStr.split c) l = l.
Proof.
  intros Hl. induction Hl as [|x l Hx Hl IH]; [done|].
  simpl. by rewrite split_without, IH.
Qed.

Lemma digits_without_tab (d : Decimal.uint) :
  has_char PyStr.TAB (NilEmpty.string_of_uint d) = false.
Proof. induction d; simpl; done. Qed.

Lemma of_int_without_tab (n : Z) :
  has_char PyStr.TAB (PyStr.of_int n) = false.
Proof.
  unfold PyStr.of_int, NilZero.string_of_int, NilZero.string_of_uint.
  destruct (Z.to_int n) as [d|d]; destruct d;
    try done; apply (digits_without_tab (_ d)) || apply digits_without_tab.
Qed.

Lemma format_1f_without_tab (x : PyNum.float) :
  has_char PyStr.TAB (PyNum.format_1f x) = false.
Proof.
  destruct x as [s|s| |s m e]; unfold PyNum.format_1f; cbv zeta;
    rewrite ?has_char_append, ?of_int_without_tab;
    try destruct s; reflexivity.
Qed.

Lemma field_without_tab (line : string) (i : nat) :
  (i < length (fields line))%nat ->
  has_char PyStr.TAB (PyStr.item (fields line) i) = false.
Proof.
  intros Hi. apply (split_fields_without PyStr.TAB (PyStr.strip line)).
  by apply nth_In.
Qed.

Lemma crew_names_without_tab (names : gmap string string) (ids : string) :
  tab_free_values names ->
  has_char PyStr.TAB (joined_or_empty (crew_names names ids)) = false.
Proof.
  intros Hnames. unfold joined_or_empty.
  destruct (crew_names names ids) as [|name l] eqn:Hl; [done|].
  apply has_char_join; [done|]. rewrite <- Hl.
  unfold crew_names. destruct (PyStr.truthy ids); [|done].
  apply Forall_forall. intros x (nid & _ & Hx)%list_elem_of_omap.
  by apply (Hnames nid).
Qed.

Lemma default_without_tab (d : gmap string string) (key : string) :
  tab_free_values d ->
  has_char PyStr.TAB (default EmptyString (d !! key)) = false.
Proof.
  intros Hd. destruct (d !! key) as [v|] eqn:Hv; [|done].
  by apply (Hd key).
Qed.

Section Layout.

Variable ratings : gmap string (PyNum.float * Z).
Variable crew : gmap string (string * string).
Variable principals names languages countries : gmap string string.
Variable line text : string.
Hypothesis written :
  basics_line ratings crew principals names languages countries line
  = Some text.

Lemma read_back_written :
  exists rating,
    ratings !! PyStr.item (fields line) 0 = Some rating
    /\ read_back text
       = flat_map (PyStr.split PyStr.TAB)
           (record_fields crew principals names languages countries
              (fields line) rating).
Proof.
  apply basics_line_Some in written
    as (_ & _ & _ & _ & _ & rating & Hrating & ->).
  exists rating. split; [done|].
  unfold read_back. rewrite chomp_newline. unfold TABS.
  apply split_join.
  unfold record_fields. destruct rating as [avg votes].
  by destruct (default _ (crew !! PyStr.item (fields line) 0)).
Qed.

Lemma head_fields_without_tab (rating : PyNum.float * Z) :
  Forall (fun x => has_char PyStr.TAB x = false)
    (take 8 (record_fields crew principals names languages countries
               (fields line) rating)).
Proof.
  apply basics_line_Some in written as (Hlen & _).
  unfold record_fields. destruct rating as [avg votes].
  destruct (default _ (crew !! PyStr.item (fields line) 0)) as [ds ws].
  simpl.
  repeat apply List.Forall_cons; try apply List.Forall_nil.
  - apply field_without_tab. lia.
  - apply field_without_tab. lia.
  - destruct (_ && _); [|done]. apply field_without_tab. lia.
  - apply field_without_tab. lia.
  - apply format_1f_without_tab.
  - apply of_int_without_tab.
  - rewrite has_char_append, field_without_tab by lia. done.
  - apply has_char_replace; [done|]. apply field_without_tab. lia.
Qed.

End Layout.

(** The first eight fields of a written line, read back. *)
Lemma first_eight_read_back
    (ratings : gmap string (PyNum.float * Z))
    (crew : gmap string (string * string))
    (principals names languages countries : gmap string string)
    (line text : string) :
  basics_line ratings crew principals names languages countries line
  = Some text ->
  exists avg_rating num_votes,
    ratings !! PyStr.item (fields line) 0 = Some (avg_rating, num_votes)
    /\ take 8 (read_back text)
       = [ PyStr.item (fields line) 0;
           PyStr.item (fields line) 2;
           (if String.eqb (PyStr.item (fields line) 3) PyStr.SENTINEL
               || String.eqb (PyStr.item (fields line) 3)
                    (PyStr.item (fields line) 2)
            then EmptyString else PyStr.item (fields line) 3);
           PyStr.item (fields line) 5;
           PyNum.format_1f avg_rating;
           PyStr.of_int num_votes;
           PyStr.item (fields line) 7 +:+ " mins.";
           PyStr.replace PyStr.COMMA PyStr.PIPE (PyStr.item (fields line) 8) ].
Proof.
  intros Hline.
  destruct (read_back_written _ _ _ _ _ _ _ _ Hline)
    as ([avg votes] & Hrating & ->).
  exists avg, votes. split; [done|].
  pose proof (head_fields_without_tab _ crew principals names languages
                countries _ _ Hline (avg, votes)) as Hhead.
  rewrite <- (take_drop 8 (record_fields _ _ _ _ _ _ _)).
  rewrite flat_map_app, (flat_map_split_without _ _ Hhead).
  rewrite take_app_length'.
  - unfold record_fields.
    destruct (default _ (crew !! PyStr.item (fields line) 0)) as [ds ws].
    simpl.
    by destruct (String.eqb (PyStr.item (fields line) 3) PyStr.SENTINEL),
         (String.eqb (PyStr.item (fields line) 3)
            (PyStr.item (fields line) 2)).
  - unfold record_fields.
    by destruct (default _ (crew !! PyStr.item (fields line) 0)).
Qed.

(** X8.  Whatever the indexes hold, the first eight fields of a written
    line, read back by cutting the line at its tabs, are the TitleId,
    the primary title, the original title (empty when it is the
    sentinel or equal to the primary title), the release year, the
    rating with one decimal, the vote count, the runtime followed by
    [ mins.], and the genres with every comma turned into a pipe. *)
Theorem X8_first_eight_fields_read_back
    (ratings : gmap string (PyNum.float * Z))
    (crew : gmap string (string * string))
    (principals names languages countries : gmap string string)
    (line text : string) :
  basics_line ratings crew principals names languages countries line
  = Some text ->
  exists avg_rating num_votes,
    ratings !! PyStr.item (fields line) 0 = Some (avg_rating, num_votes)
    /\ take 8 (read_back text)
       = [ PyStr.item (fields line) 0;
           PyStr.item (fields line) 2;
           (if String.eqb (PyStr.item (fields line) 3) PyStr.SENTINEL
               || String.eqb (PyStr.item (fields line) 3)
                    (PyStr.item (fields line) 2)
            then EmptyString else PyStr.item (fields line) 3);
           PyStr.item (fields line) 5;
           PyNum.format_1f avg_rating;
           PyStr.of_int num_votes;
           PyStr.item (fields line) 7 +:+ " mins.";
           PyStr.replace PyStr.COMMA PyStr.PIPE (PyStr.item (fields line) 8) ].
Proof. apply first_eight_read_back. Qed.

Lemma X8_first_eight_fields_read_back_witness :
  take 8 (read_back foo_text)
  = ["tt0000001"; "Foo"; EmptyString; "1999"; "8.5"; "1000"; "90 mins.";
     "Drama|Comedy"].
Proof.
  assert (basics_line foo_ratings foo_crew ∅ foo_names ∅ ∅ (row foo_cells)
          = Some foo_text) as Hfoo by (vm_compute; reflexivity).
  destruct (X8_first_eight_fields_read_back _ _ _ _ _ _ _ _ Hfoo)
    as (avg & votes & Hrating & Hread).
  rewrite Hread.
  assert (foo_ratings !! PyStr.item (fields (row foo_cells)) 0
          = Some (rating_8_5, 1000)) as Hfound by (vm_compute; reflexivity).
  rewrite Hfound in Hrating. injection Hrating as <- <-.
  vm_compute. reflexivity.
Defined.

(** With indexes free of tabs, reading a written line back gives its
    record. *)
Lemma read_back_record
    (ratings : gmap string (PyNum.float * Z))
    (crew : gmap string (string * string))
    (principals names languages countries : gmap string string)
    (line text : string) :
  tab_free_values names -> tab_free_values principals ->
  tab_free_values languages -> tab_free_values countries ->
  basics_line ratings crew principals names languages countries line
  = Some text ->
  length (read_back text) = 14%nat
  /\ exists rating,
       ratings !! PyStr.item (fields line) 0 = Some rating
       /\ read_back text
          = record_fields crew principals names languages countries
              (fields line) rating.
Proof.
  intros Hnames Hprincipals Hlanguages Hcountries Hline.
  destruct (read_back_written _ _ _ _ _ _ _ _ Hline)
    as (rating & Hrating & Hread).
  pose proof (head_fields_without_tab _ crew principals names languages
                countries _ _ Hline rating) as Hhead.
  assert (Hlen := Hline). apply basics_line_Some in Hlen as (Hlen & _).
  assert (Forall (fun x => has_char PyStr.TAB x = false)
            (record_fields crew principals names languages countries
               (fields line) rating)) as Hall.
  { rewrite <- (take_drop 8 (record_fields _ _ _ _ _ _ _)).
    apply Forall_app. split; [done|].
    unfold record_fields. destruct rating as [avg votes].
    destruct (default _ (crew !! PyStr.item (fields line) 0)) as [ds ws].
    simpl.
    repeat apply List.Forall_cons; try apply List.Forall_nil.
    - by apply crew_names_without_tab.
    - by apply crew_names_without_tab.
    - by apply default_without_tab.
    - by apply default_without_tab.
    - by apply default_without_tab.
    - apply field_without_tab. lia. }
  rewrite Hread, (flat_map_split_without _ _ Hall).
  split; [|by exists rating].
  unfold record_fields. destruct rating as [avg votes].
  by destruct (default _ (crew !! PyStr.item (fields line) 0)).
Qed.

(** X9.  When no value of NameIndex, PrincipalsIndex and the two locale
    mappings holds a tab, a written line read back by cutting it at its
    tabs gives exactly the fourteen fields of its record. *)
Theorem X9_fourteen_fields_read_back
    (ratings : gmap string (PyNum.float * Z))
    (crew : gmap string (string * string))
    (principals names languages countries : gmap string string)
    (line text : string) :
  tab_free_values names -> tab_free_values principals ->
  tab_free_values languages -> tab_free_values countries ->
  basics_line ratings crew principals names languages countries line
  = Some text ->
  length (read_back text) = 14%nat
  /\ exists rating,
       ratings !! PyStr.item (fields line) 0 = Some rating
       /\ read_back text
          = record_fields crew principals names languages countries
              (fields line) rating.
Proof. apply read_back_record. Qed.

Lemma X9_fourteen_fields_read_back_witness :
  length (read_back foo_text) = 14%nat.
Proof.
  assert (basics_line foo_ratings foo_crew ∅ foo_names ∅ ∅ (row foo_cells)
          = Some foo_text) as Hfoo by (vm_compute; reflexivity).
  assert (tab_free_values ∅) as Hempty.
  { intros key v Hv. by rewrite lookup_empty in Hv. }
  assert (tab_free_values foo_names) as Hnames.
  { intros key v Hv. unfold foo_names in Hv.
    apply lookup_insert_Some in Hv as [[_ <-]|[_ Hv]]; [done|].
    by apply lookup_singleton_Some in Hv as [_ <-]. }
  exact (proj1 (X9_fourteen_fields_read_back
                  foo_ratings foo_crew ∅ foo_names ∅ ∅ (row foo_cells)
                  foo_text Hnames Hempty Hempty Hempty Hfoo)).
Defined.

(** ** The layout of the lines of a run *)

Lemma load_names_without_tab (f : text_stream)
    (o : outcome (gmap string string)) :
  load_names f = Ok o -> tab_free_values (value o).
Proof.
  intros Hload nconst name Hname.
  apply skip_header_then_each_Ok in Hload as [Hvalue _].
  rewrite Hvalue, names_loop_store in Hname.
  apply store_only_entries in Hname as (line & _ & Hline).
  unfold name_entry in Hline.
  destruct (2 <=? length (fields line))%nat eqn:Hlen; [|done].
  apply Nat.leb_le in Hlen. injection Hline as _ <-.
  apply field_without_tab. lia.
Qed.

Lemma principals_loop_without_tab (names : gmap string string)
    (lines : list string) (principals : gmap string (list string)) :
  tab_free_values names ->
  (forall tconst cast,
     principals !! tconst = Some cast ->
     Forall (fun x => has_char PyStr.TAB x = false) cast) ->
  forall tconst cast,
    fold_left (principals_line names) lines principals !! tconst
    = Some cast ->
    Forall (fun x => has_char PyStr.TAB x = false) cast.
Proof.
  intros Hnames. revert principals.
  induction lines as [|line lines IH]; intros principals Hold; [done|].
  simpl. apply IH. intros tconst cast.
  rewrite principals_line_lookup.
  destruct (performer_of names tconst line) as [name|] eqn:Hname;
    [|apply Hold].
  assert (has_char PyStr.TAB name = false) as Hfree.
  { unfold performer_of in Hname.
    destruct (_ && _); [|done]. injection Hname as <-.
    destruct (names !! PyStr.item (fields line) 2) as [v|] eqn:Hv; [|done].
    by apply (Hnames _ _ Hv). }
  destruct (principals !! tconst) as [old|] eqn:Hcast.
  - destruct (length old <? 3)%nat; intros [= <-].
    + apply Forall_app. split; [by apply (Hold tconst)|].
      by apply List.Forall_cons.
    + by apply (Hold tconst).
  - intros [= <-]. by apply List.Forall_cons.
Qed.

Lemma load_principals_without_tab (f : text_stream)
    (names : gmap string string) (o : outcome (gmap string string)) :
  tab_free_values names ->
  load_principals f names = Ok o -> tab_free_values (value o).
Proof.
  intros Hnames Hload tconst text Htext.
  unfold load_principals in Hload.
  destruct (principals_lists names f) as [lists|] eqn:Hlists; [|done].
  injection Hload as <-. simpl in Htext.
  rewrite lookup_fmap in Htext.
  destruct (value lists !! tconst) as [cast|] eqn:Hcast; [|done].
  injection Htext as <-.
  apply skip_header_then_each_Ok in Hlists as [Hvalue _].
  rewrite Hvalue in Hcast.
  apply has_char_join; [done|].
  eapply (principals_loop_without_tab names (drop 1 (pending f)) ∅ Hnames);
    [|exact Hcast].
  intros t c Hc. by rewrite lookup_empty in Hc.
Qed.

Lemma load_locale_without_tab (f : text_stream)
    (o : outcome (gmap string string * gmap string string)) :
  load_languages_and_countries f = Ok o ->
  tab_free_values (value o).1 /\ tab_free_values (value o).2.
Proof.
  intros Hload.
  split; intros tconst code Hcode;
    destruct (load_languages_and_countries_Ok f o tconst Hload)
      as [Hlang Hcountry].
  - rewrite Hlang in Hcode.
    apply resolve_source in Hcode as [->|[b Hin]]; [done|].
    apply locale_rows_source in Hin as (line & _ & Hlen & _ & <- & _).
    apply field_without_tab. lia.
  - rewrite Hcountry in Hcode.
    apply resolve_source in Hcode as [->|[b Hin]]; [done|].
    apply locale_rows_source in Hin as (line & _ & Hlen & _ & <- & _).
    apply field_without_tab. lia.
Qed.

(** X10.  Every line that a run writes has exactly fourteen fields
    when it is cut at its tabs: no field of the record can bring a tab
    of its own into the line, since every text of the indexes comes out
    of a line that was itself cut at its tabs. *)
Theorem X10_run_lines_have_fourteen_fields (src : sources)
    (written : list string) (text : string) :
  run src = Ok written ->
  text ∈ written ->
  length (read_back text) = 14%nat.
Proof.
  unfold run, bind.
  destruct (load_ratings (ratings_gz src)) as [ratings|]; [|done].
  destruct (load_crew (crew_gz src)) as [crew|]; [|done].
  destruct (load_names (names_gz src)) as [names|] eqn:Hnames; [|done].
  destruct (load_principals (principals_gz src) (value names))
    as [principals|] eqn:Hprincipals; [|done].
  destruct (load_languages_and_countries (akas_gz src)) as [locale|]
    eqn:Hlocale; [|done].
  destruct (process_basics _ _ _ _ _ _ (basics_gz src)) as [out|] eqn:Hout;
    [|done].
  intros [= <-] Htext.
  apply skip_header_then_each_Ok in Hout as [Hout _].
  rewrite basics_loop in Hout. simpl in Hout. rewrite Hout in Htext.
  apply list_elem_of_omap in Htext as (line & _ & Hline).
  apply load_names_without_tab in Hnames.
  apply (load_principals_without_tab _ _ _ Hnames) in Hprincipals.
  apply load_locale_without_tab in Hlocale as [Hlanguages Hcountries].
  exact (proj1 (read_back_record _ _ _ _ _ _ _ _
                  Hnames Hprincipals Hlanguages Hcountries Hline)).
Qed.

Lemma X10_run_lines_have_fourteen_fields_witness :
  length (read_back foo_text) = 14%nat.
Proof.
  apply (X10_run_lines_have_fourteen_fields scenario [foo_text]).
  - vm_compute. reflexivity.
  - apply elem_of_cons. by left.
Defined.

(** ** Genres *)

Lemma split_replace (a b : ascii) (s : string) :
  has_char b s = false ->
  PyStr.split b (PyStr.replace a b s) = PyStr.split a s.
Proof.
  induction s as [|x s IH]; [done|]. simpl.
  intros [Hx Hs]%orb_false_elim. rewrite (IH Hs).
  destruct (Ascii.eqb x a); [by rewrite Ascii.eqb_refl|].
  by rewrite Hx.
Qed.

(** X11.  When the genres of a title hold no pipe, the genres field of
    its written line, cut at the pipes, is the genre list of the source,
    cut at the commas: the same genres in the same order. *)
Theorem X11_genres_read_back
    (ratings : gmap string (PyNum.float * Z))
    (crew : gmap string (string * string))
    (principals names languages countries : gmap string string)
    (line text : string) :
  basics_line ratings crew principals names languages countries line
  = Some text ->
  has_char PyStr.PIPE (PyStr.item (fields line) 8) = false ->
  PyStr.split PyStr.PIPE (PyStr.item (read_back text) 7)
  = PyStr.split PyStr.COMMA (PyStr.item (fields line) 8).
Proof.
  intros Hline Hpipe.
  destruct (first_eight_read_back _ _ _ _ _ _ _ _ Hline)
    as (avg & votes & _ & Hread).
  assert (PyStr.item (read_back text) 7
          = PyStr.item (take 8 (read_back text)) 7) as ->.
  { unfold PyStr.item.
    rewrite <- (take_drop 8 (read_back text)) at 1.
    apply app_nth1. rewrite Hread. simpl. lia. }
  rewrite Hread. simpl. by apply split_replace.
Qed.

Lemma X11_genres_read_back_witness :
  PyStr.split PyStr.PIPE (PyStr.item (read_back foo_text) 7)
  = ["Drama"; "Comedy"].
Proof.
  assert (basics_line foo_ratings foo_crew ∅ foo_names ∅ ∅ (row foo_cells)
          = Some foo_text) as Hfoo by (vm_compute; reflexivity).
  rewrite (X11_genres_read_back _ _ _ _ _ _ _ _ Hfoo)
    by (vm_compute; reflexivity).
  vm_compute. reflexivity.
Defined.

(** ** [main]: what a successful run leaves behind *)

Lemma and_then_inl {A B : Type} (m : script A) (k : A -> script B)
    (d d' : disk) (b : B) :
  and_then m k d = (d', inl b) ->
  exists d1 a, m d = (d1, inl a) /\ k a d1 = (d', inl b).
Proof.
  unfold and_then. destruct (m d) as [d1 [a|why]]; [|done].
  intros Hk. by exists d1, a.
Qed.

Lemma fetch_open_inl (remote : string -> fetch) (url filename : string)
    (d d1 d2 : disk) (u : unit) (f : text_stream) :
  unless_exists filename (download_file remote url filename) d
  = (d1, inl u) ->
  gzip_open filename d1 = (d2, inl f) ->
  d2 = d1 /\ dataset d1 = dataset d
  /\ archives d1 = <[filename := f]> (archives d)
  /\ supplied remote d url filename f.
Proof.
  unfold unless_exists, has_key, download_file, gzip_open, supplied.
  destruct (archives d !! filename) as [g|] eqn:Hfile.
  - intros [= <- _]. rewrite Hfile. intros [= <- <-].
    split_and!; try done; [|by left].
    by rewrite insert_id.
  - destruct (remote url) as [g|[part|]]; [|done|done].
    intros [= <- _]. simpl. rewrite lookup_insert_eq.
    intros [= <- <-]. split_and!; try done. by right.
Qed.

Lemma stage_inl {A : Type} (r : result (outcome A)) (d d' : disk) (v : A) :
  stage r d = (d', inl v) -> d' = d /\ exists o, r = Ok o /\ value o = v.
Proof.
  unfold stage. destruct r as [o|e]; [|done].
  intros [= <- <-]. split; [done|]. by exists o.
Qed.

Lemma supplied_same_file (remote : string -> fetch) (d d1 : disk)
    (url filename : string) (f : text_stream) :
  archives d1 !! filename = archives d !! filename ->
  supplied remote d1 url filename f -> supplied remote d url filename f.
Proof. unfold supplied. by intros ->. Qed.

Lemma remove_existing_lookup (names : list string)
    (files : gmap string text_stream) (filename : string) :
  fold_left (fun files gz_file =>
               if has_key gz_file files then delete gz_file files
               else files) names files !! filename
  = if bool_decide (filename ∈ names) then None else files !! filename.
Proof.
  revert files. induction names as [|gz names IH]; intros files; [done|].
  simpl. rewrite IH.
  destruct (decide (filename ∈ names)) as [Hin|Hout].
  - rewrite bool_decide_eq_true_2 by done.
    rewrite bool_decide_eq_true_2; [done|]. apply elem_of_cons. by right.
  - rewrite (bool_decide_eq_false_2 _ Hout).
    destruct (decide (filename = gz)) as [->|Hne].
    + rewrite bool_decide_eq_true_2 by (apply elem_of_cons; by left).
      unfold has_key. destruct (files !! gz) eqn:Hgz; [|done].
      apply lookup_delete_eq.
    + rewrite bool_decide_eq_false_2
        by (intros [?|?]%elem_of_cons; done).
      destruct (has_key gz files); [|done].
      by apply lookup_delete_ne.
Qed.

Lemma cleanup_inl (d d' : disk) (u : unit) :
  cleanup d = (d', inl u) ->
  d' = Disk (fold_left (fun files gz_file =>
                          if has_key gz_file files then delete gz_file files
                          else files)
                       temporary_files (archives d))
            (dataset d).
Proof. unfold cleanup. congruence. Qed.

Ltac next_archive Hbody d1 f Hdata Hfiles Hsupplied :=
  let u := fresh "u" in
  let d2 := fresh "d" in
  let Hfetch := fresh "Hfetch" in
  let Hopen := fresh "Hopen" in
  apply and_then_inl in Hbody as (d1 & u & Hfetch & Hbody);
  apply and_then_inl in Hbody as (d2 & f & Hopen & Hbody);
  destruct (fetch_open_inl _ _ _ _ _ _ _ _ Hfetch Hopen)
    as (-> & Hdata & Hfiles & Hsupplied);
  clear Hfetch Hopen.

Ltac next_stage Hbody v o Hload :=
  let d2 := fresh "d" in
  let Hstage := fresh "Hstage" in
  apply and_then_inl in Hbody as (d2 & v & Hstage & Hbody);
  apply stage_inl in Hstage as (-> & o & Hload & <-).

(** X13.  When [main] ends with success, the output file holds exactly
    the lines that the pipeline gives on the six archives it read, each
    one the archive of the directory when there was one, else the one
    fetched from its URL; the six archive names are gone from the
    directory, and every other file is as it was. *)
Theorem X13_successful_main (remote : string -> fetch) (d d' : disk) :
  main remote d = (d', Success) ->
  exists src written,
    supplied_sources remote d src
    /\ run src = Ok written
    /\ dataset d' = Some written
    /\ (forall filename,
          filename ∈ temporary_files -> archives d' !! filename = None)
    /\ (forall filename,
          filename ∉ temporary_files ->
          archives d' !! filename = archives d !! filename).
Proof.
  unfold main.
  destruct (main_body remote d) as [d0 [u0|why]] eqn:Hbody; [|done].
  intros [= <-]. unfold main_body in Hbody.
  next_archive Hbody d1 ratings_file Hdata1 Hfiles1 Hsupplied1.
  next_stage Hbody ratings o1 Hload1.
  next_archive Hbody d2 crew_file Hdata2 Hfiles2 Hsupplied2.
  next_stage Hbody crew o2 Hload2.
  next_archive Hbody d3 names_file Hdata3 Hfiles3 Hsupplied3.
  next_stage Hbody names o3 Hload3.
  next_archive Hbody d4 principals_file Hdata4 Hfiles4 Hsupplied4.
  next_stage Hbody principals o4 Hload4.
  next_archive Hbody d5 akas_file Hdata5 Hfiles5 Hsupplied5.
  next_stage Hbody locale o5 Hload5.
  next_archive Hbody d6 basics_file Hdata6 Hfiles6 Hsupplied6.
  apply and_then_inl in Hbody as (d7 & u7 & Hwrite & Hclean).
  unfold write_dataset in Hwrite.
  destruct (process_basics _ _ _ _ _ _ basics_file) as [o6|] eqn:Hload6;
    [|done].
  injection Hwrite as <- _.
  apply cleanup_inl in Hclean as ->. cbn [archives dataset].
  exists (Sources ratings_file crew_file names_file principals_file
            akas_file basics_file), (value o6).
  split_and!.
  - unfold supplied_sources. simpl. split_and!.
    + done.
    + apply (supplied_same_file _ _ d1); [|done].
      by rewrite Hfiles1, lookup_insert_ne.
    + apply (supplied_same_file _ _ d2); [|done].
      by rewrite Hfiles2, Hfiles1, !lookup_insert_ne.
    + apply (supplied_same_file _ _ d3); [|done].
      by rewrite Hfiles3, Hfiles2, Hfiles1, !lookup_insert_ne.
    + apply (supplied_same_file _ _ d4); [|done].
      by rewrite Hfiles4, Hfiles3, Hfiles2, Hfiles1, !lookup_insert_ne.
    + apply (supplied_same_file _ _ d5); [|done].
      by rewrite Hfiles5, Hfiles4, Hfiles3, Hfiles2, Hfiles1,
           !lookup_insert_ne.
  - unfold run, bind. simpl.
    by rewrite Hload1, Hload2, Hload3, Hload4, Hload5, Hload6.
  - done.
  - intros filename Hin. rewrite remove_existing_lookup.
    by rewrite bool_decide_eq_true_2.
  - intros filename Hout. rewrite remove_existing_lookup.
    rewrite bool_decide_eq_false_2 by done.
    rewrite Hfiles6, Hfiles5, Hfiles4, Hfiles3, Hfiles2, Hfiles1.
    unfold temporary_files in Hout.
    rewrite !not_elem_of_cons in Hout.
    destruct Hout as (? & ? & ? & ? & ? & ? & _).
    by rewrite !lookup_insert_ne.
Qed.

Lemma X13_successful_main_witness :
  exists src written,
    supplied_sources scenario_remote (Disk ∅ None) src
    /\ run src = Ok written
    /\ dataset (Disk ∅ (Some [foo_text])) = Some written.
Proof.
  assert (main scenario_remote (Disk ∅ None)
          = (Disk ∅ (Some [foo_text]), Success)) as Hrun
    by (vm_compute; reflexivity).
  destruct (X13_successful_main _ _ _ Hrun)
    as (src & written & Hsupplied & Hwritten & Hdata & _).
  by exists src, written.
Defined.

(** ** [main]: the archives already in the directory *)

Section Offline.

Context {B : Type}.
Variable d : disk.

Lemma fetch_present (remote : string -> fetch) (url filename : string)
    (f : text_stream) (k : unit -> script B) :
  archives d !! filename = Some f ->
  and_then (unless_exists filename (download_file remote url filename)) k d
  = k tt d.
Proof.
  intros Hfile. unfold and_then, unless_exists, has_key. by rewrite Hfile.
Qed.

Lemma gzip_open_present (filename : string) (f : text_stream)
    (k : text_stream -> script B) :
  archives d !! filename = Some f ->
  and_then (gzip_open filename) k d = k f d.
Proof. intros Hfile. unfold and_then, gzip_open. by rewrite Hfile. Qed.

Lemma stage_and_then {A : Type} (r : result (outcome A))
    (k : A -> script B) :
  and_then (stage r) k d
  = match r with
    | Ok o => k (value o) d
    | Raise e => (d, inr (StageFailed e))
    end.
Proof. unfold and_then, stage. by destruct r. Qed.

End Offline.

Ltac read_local H :=
  rewrite !(fetch_present _ _ _ _ _ _ H), !(gzip_open_present _ _ _ _ H).

(** X14.  When the six archives are in the directory, [main] fetches
    nothing: what it does is the same whatever the server would
    answer. *)
Theorem X14_main_uses_local_archives (remote remote' : string -> fetch)
    (d : disk) :
  (forall filename,
     filename ∈ temporary_files -> is_Some (archives d !! filename)) ->
  main remote d = main remote' d.
Proof.
  intros Hlocal.
  assert (forall filename,
            filename ∈ temporary_files ->
            exists f, archives d !! filename = Some f) as Hfile.
  { intros filename Hin. by apply Hlocal. }
  unfold temporary_files in Hfile.
  destruct (Hfile RATINGS_GZ) as [f1 H1]; [repeat constructor|].
  destruct (Hfile CREW_GZ) as [f2 H2]; [repeat constructor|].
  destruct (Hfile NAMES_GZ) as [f3 H3]; [repeat constructor|].
  destruct (Hfile PRINCIPALS_GZ) as [f4 H4]; [repeat constructor|].
  destruct (Hfile AKAS_GZ) as [f5 H5]; [repeat constructor|].
  destruct (Hfile BASICS_GZ) as [f6 H6]; [repeat constructor|].
  unfold main, main_body.
  read_local H1. rewrite !stage_and_then.
  destruct (load_ratings f1) as [o1|]; [|done].
  read_local H2. rewrite !stage_and_then.
  destruct (load_crew f2) as [o2|]; [|done].
  read_local H3. rewrite !stage_and_then.
  destruct (load_names f3) as [o3|]; [|done].
  read_local H4. rewrite !stage_and_then.
  destruct (load_principals f4 (value o3)) as [o4|]; [|done].
  read_local H5. rewrite !stage_and_then.
  destruct (load_languages_and_countries f5) as [o5|]; [|done].
  read_local H6. done.
Qed.

Lemma X14_main_uses_local_archives_witness :
  main (fun _ => Broken None) scenario_disk
  = (Disk ∅ (Some [foo_text]), Success).
Proof.
  rewrite (X14_main_uses_local_archives _ scenario_remote).
  - vm_compute. reflexivity.
  - intros filename Hin. unfold temporary_files in Hin.
    repeat (apply elem_of_cons in Hin as [->|Hin];
            [vm_compute; by eexists|]).
    by apply elem_of_nil in Hin.
Defined.

(** ** Ratings and vote counts, read and written *)




Section Decimals.



End Decimals.











(** ** A cut principals archive *)

(** X17.  The cast that PrincipalsIndex holds for a title after a cut
    archive is the beginning of the cast it holds after any archive
    that goes on after the cut: lines that come later add names at the
    end, up to three, and change none. *)
Theorem X17_cut_cast_is_a_prefix (names : gmap string string)
    (header : string) (lines further : list string) (e : stream_end)
    (tconst : string) (cast : list string) :
  fold_left (principals_line names) lines ∅ !! tconst = Some cast ->
  exists partial complete longer,
    principals_lists names (cut_after header lines)
    = Ok (Outcome partial true)
    /\ partial !! tconst = Some cast
    /\ principals_lists names (TextStream (header :: lines ++ further) e)
       = Ok (Outcome complete (was_cut e))
    /\ complete !! tconst = Some longer
    /\ cast `prefix_of` longer.
Proof.
  intros Hcast.
  exists (fold_left (principals_line names) lines ∅),
    (fold_left (principals_line names) (lines ++ further) ∅),
    (take 3 (performers names tconst (lines ++ further))).
  rewrite principals_loop, lookup_empty in Hcast.
  assert (performers names tconst (lines ++ further)
          = performers names tconst lines
            ++ performers names tconst further) as Hall
    by apply omap_app.
  destruct (performers names tconst lines) as [|name rest] eqn:Hlines;
    [done|].
  injection Hcast as <-.
  split_and!.
  - reflexivity.
  - by rewrite principals_loop, lookup_empty, Hlines.
  - reflexivity.
  - by rewrite principals_loop, lookup_empty, Hall.
  - rewrite Hall, take_app. by apply prefix_app_r.
Qed.

Lemma X17_cut_cast_is_a_prefix_witness :
  exists partial complete longer,
    principals_lists cast_names (cut_after principals_header (take 2 cast_rows))
    = Ok (Outcome partial true)
    /\ partial !! "tt0000001" = Some ["A"]
    /\ principals_lists cast_names
         (TextStream (principals_header :: take 2 cast_rows
                        ++ drop 2 cast_rows) EndOfFile)
       = Ok (Outcome complete false)
    /\ complete !! "tt0000001" = Some longer
    /\ ["A"] `prefix_of` longer.
Proof.
  apply (X17_cut_cast_is_a_prefix cast_names principals_header
           (take 2 cast_rows) (drop 2 cast_rows) EndOfFile "tt0000001").
  vm_compute. reflexivity.
Defined.

(** ** The cast and locale fields of the lines of a run *)

(** X18.  In a run, the cast, language and country fields of the line
    written for a title are what the principals and alternate-titles
    archives give for its TitleId: the first three performers of the
    title, named through the NameIndex of the run and joined by a comma
    and a blank, and the codes that the priority policy resolves; each
    field is empty when the archive has nothing for the title. *)
Theorem X18_run_cast_and_locale_fields (src : sources)
    (written : list string) (text : string) :
  run src = Ok written ->
  text ∈ written ->
  exists line names,
    line ∈ drop 1 (pending (basics_gz src))
    /\ load_names (names_gz src) = Ok names
    /\ PyStr.item (read_back text) 0 = PyStr.item (fields line) 0
    /\ PyStr.item (read_back text) 10
       = match performers (value names) (PyStr.item (fields line) 0)
                 (drop 1 (pending (principals_gz src))) with
         | [] => EmptyString
         | cast => PyStr.join ", " (take 3 cast)
         end
    /\ PyStr.item (read_back text) 11
       = default EmptyString
           (resolve "en" (locale_rows 4 (PyStr.item (fields line) 0)
                            (drop 1 (pending (akas_gz src)))))
    /\ PyStr.item (read_back text) 12
       = default EmptyString
           (resolve "US" (locale_rows 3 (PyStr.item (fields line) 0)
                            (drop 1 (pending (akas_gz src))))).
Proof.
  unfold run, bind.
  destruct (load_ratings (ratings_gz src)) as [ratings|]; [|done].
  destruct (load_crew (crew_gz src)) as [crew|]; [|done].
  destruct (load_names (names_gz src)) as [names|] eqn:Hnames; [|done].
  destruct (load_principals (principals_gz src) (value names))
    as [principals|] eqn:Hprincipals; [|done].
  destruct (load_languages_and_countries (akas_gz src)) as [locale|]
    eqn:Hlocale; [|done].
  destruct (process_basics _ _ _ _ _ _ (basics_gz src)) as [out|] eqn:Hout;
    [|done].
  intros [= <-] Htext.
  apply skip_header_then_each_Ok in Hout as [Hout _].
  rewrite basics_loop in Hout. simpl in Hout. rewrite Hout in Htext.
  apply list_elem_of_omap in Htext as (line & Hin & Hline).
  exists line, names. split; [done|]. split; [done|].
  pose proof (load_names_without_tab _ _ Hnames) as Hfree.
  pose proof (load_principals_without_tab _ _ _ Hfree Hprincipals) as Hcast.
  destruct (load_locale_without_tab _ _ Hlocale) as [Hlanguages Hcountries].
  destruct (read_back_record _ _ _ _ _ _ _ _
              Hfree Hcast Hlanguages Hcountries Hline)
    as (_ & [avg votes] & _ & ->).
  destruct (load_languages_and_countries_Ok _ _ (PyStr.item (fields line) 0)
              Hlocale) as [Hlang Hcountry].
  unfold record_fields.
  destruct (default _ (value crew !! PyStr.item (fields line) 0))
    as [ds ws].
  cbn [PyStr.item nth]. rewrite Hlang, Hcountry.
  split_and!; try done.
  unfold load_principals in Hprincipals.
  destruct (principals_lists (value names) (principals_gz src))
    as [lists|] eqn:Hlists; [|done].
  injection Hprincipals as <-. simpl. rewrite lookup_fmap.
  apply skip_header_then_each_Ok in Hlists as [-> _].
  rewrite principals_loop, lookup_empty.
  by destruct (performers _ _ _).
Qed.

Lemma X18_run_cast_and_locale_fields_witness :
  exists line names,
    line ∈ drop 1 (pending (basics_gz unnamed_person))
    /\ load_names (names_gz unnamed_person) = Ok names
    /\ PyStr.item (read_back
                     (row ["tt0000001"; "Foo"; EmptyString; "1999"; "8.5";
                           "1000"; "90 mins."; "Drama|Comedy";
                           PyStr.SENTINEL; EmptyString; PyStr.SENTINEL;
                           EmptyString; EmptyString; "0"])) 0
       = PyStr.item (fields line) 0.
Proof.
  assert (run unnamed_person
          = Ok [row ["tt0000001"; "Foo"; EmptyString; "1999"; "8.5";
                     "1000"; "90 mins."; "Drama|Comedy";
                     PyStr.SENTINEL; EmptyString; PyStr.SENTINEL;
                     EmptyString; EmptyString; "0"]]) as Hrun
    by (vm_compute; reflexivity).
  destruct (X18_run_cast_and_locale_fields _ _ _ Hrun
              ltac:(apply list_elem_of_here))
    as (line & names & Hin & Hnames & Hid & _).
  by exists line, names.
Defined.
